(** * registry: a Docker Registry API v2 client (existence and platform probe)

    Shallow embedding of [registry/client.go] and the properties of its
    reference resolution, authentication retry loop and manifest dispatch.

    Go strings are byte strings: they are modelled by [string] (a list of
    8-bit [ascii]).  Go [int]s are modelled by [Z].  A run-time panic (index
    or slice out of range, nil dereference) is an explicit outcome. *)

From Stdlib Require Import ZArith Ascii String.
From stdpp Require Import gmap strings list.

Open Scope string_scope.

(** ** Outcomes: a value, or a run-time panic *)

Inductive Outcome (A : Type) : Type :=
| Done (a : A)
| Panic (msg : string).
Arguments Done {A} a.
Arguments Panic {A} msg.

#[global] Instance Outcome_ret : MRet Outcome := fun _ a => Done a.
#[global] Instance Outcome_bind : MBind Outcome := fun _ _ f m =>
  match m with
  | Done a => f a
  | Panic msg => Panic msg
  end.

(** [l[i]] on a slice: panics when [i] is out of range. *)
Definition index {A} (l : list A) (i : nat) : Outcome A :=
  match l !! i with
  | Some a => Done a
  | None => Panic "index out of range"
  end.

Fixpoint take_str (n : nat) (s : string) : string :=
  match n, s with
  | S n', String a s' => String a (take_str n' s')
  | _, _ => EmptyString
  end.

Fixpoint drop_str (n : nat) (s : string) : string :=
  match n, s with
  | S n', String _ s' => drop_str n' s'
  | _, _ => s
  end.

(** [s[lo:hi]] on a string: panics unless [0 <= lo <= hi <= len(s)]. *)
Definition slice (s : string) (lo hi : Z) : Outcome string :=
  if ((0 <=? lo) && (lo <=? hi) && (hi <=? Z.of_nat (String.length s)))%Z
  then Done (take_str (Z.to_nat hi - Z.to_nat lo) (drop_str (Z.to_nat lo) s))
  else Panic "slice bounds out of range".

(** ** The functions of Go's [strings] package that the client calls *)

Module Strings.

Definition HasPrefix (s pre : string) : bool := String.prefix pre s.

(** Position of the first occurrence of [sep] in [s]. *)
Fixpoint find (sep s : string) : option nat :=
  if String.prefix sep s then Some 0
  else match s with
       | EmptyString => None
       | String _ s' => S <$> find sep s'
       end.

(** [strings.Index]: -1 when [sep] does not occur. *)
Definition Index (s sep : string) : Z :=
  match find sep s with
  | Some i => Z.of_nat i
  | None => (-1)%Z
  end.

Definition IndexByte (s : string) (c : ascii) : Z :=
  Index s (String c EmptyString).

Definition Contains (s substr : string) : bool := (0 <=? Index s substr)%Z.

(** [strings.SplitN(s, sep, n)] for [n >= 0] and a non-empty [sep] (the
    client only splits on "/", " " and "="): at most [n] pieces, the last
    one being the unsplit remainder. *)
Fixpoint SplitN (s sep : string) (n : nat) : list string :=
  match n with
  | 0 => []
  | S n' =>
      match n' with
      | 0 => [s]
      | S _ =>
          match find sep s with
          | None => [s]
          | Some m =>
              take_str m s :: SplitN (drop_str (m + String.length sep) s) sep n'
          end
      end
  end.

Fixpoint Join (elems : list string) (sep : string) : string :=
  match elems with
  | [] => ""
  | [e] => e
  | e :: rest => e +:+ sep +:+ Join rest sep
  end.

End Strings.

(** ** Repository *)

Definition dockerHubHost : string := "registry-1.docker.io".
Definition mediaTypeDockerSchema2ManifestList : string :=
  "application/vnd.docker.distribution.manifest.list.v2+json".
Definition mediaTypeDockerSchema2Manifest : string :=
  "application/vnd.docker.distribution.manifest.v2+json".

(** The [client] field is the HTTP transport; it is the environment below. *)
Record Repository : Type := mkRepository {
  host : string;
  repo : string;
  user : string;
  password : string;
  token : string;
}.

Definition set_host (h : string) (c : Repository) : Repository :=
  mkRepository h (repo c) (user c) (password c) (token c).
Definition set_repo (r : string) (c : Repository) : Repository :=
  mkRepository (host c) r (user c) (password c) (token c).
Definition set_token (t : string) (c : Repository) : Repository :=
  mkRepository (host c) (repo c) (user c) (password c) t.

(** [New] creates a client for a repository. *)
Definition New (image user password : string) : Outcome Repository :=
  let c := mkRepository "" "" user password "" in
  let p := Strings.SplitN image "/" 2 in
  p0 ← index p 0;
  if Strings.Contains p0 "." && (2 <=? length p)%nat then
    p0 ← index p 0;
    p1 ← index p 1;
    mret (set_repo p1 (set_host p0 c))
  else
    let image := if negb (Strings.Contains image "/")
                 then "library/" +:+ image else image in
    mret (set_repo image (set_host dockerHubHost c)).


(** ** Errors

    Go compares error values by identity: the package-level
    [ErrDeprecatedManifest] is a value of its own, different from every error
    made later, whatever its text. *)

Inductive error : Type :=
| ErrDeprecatedManifest
    (* var ErrDeprecatedManifest = errors.New("deprecated manifest") *)
| errors_New (msg : string)
    (* errors.New(msg), errors.Errorf(format, ...) with the text formatted *)
| fmt_Errorf (msg : string)
    (* fmt.Errorf(format, ...) without %w, the text formatted *)
| fmt_Errorf_w (msg : string) (wrapped : error)
    (* fmt.Errorf(format, err) whose format is msg followed by %w *)
| foreign (msg : string).
    (* an error returned by net/http, net/url or encoding/json *)

(** ** The image-spec types and constants ([ocispec]) the client uses *)

Module ocispec.
Definition MediaTypeImageIndex : string :=
  "application/vnd.oci.image.index.v1+json".
Definition MediaTypeImageManifest : string :=
  "application/vnd.oci.image.manifest.v1+json".
Definition MediaTypeImageConfig : string :=
  "application/vnd.oci.image.config.v1+json".
End ocispec.

Module Platform.
Record t : Type := mk { Architecture : string; OS : string }.
End Platform.

Module Descriptor.
Record t : Type := mk {
  MediaType : string;
  Digest : string;
  Platform : option Platform.t;   (* a pointer: nil when absent *)
}.
End Descriptor.

Module Index.
Record t : Type := mk { Manifests : list Descriptor.t }.
End Index.

Module Manifest.
Record t : Type := mk { Config : Descriptor.t; Layers : list Descriptor.t }.
End Manifest.

Module Image.
Record t : Type := mk { Architecture : string; OS : string }.
End Image.

(** ** HTTP messages

    A header is a map from canonical keys to value lists; the four keys the
    client uses ("Accept", "Authorization", "Content-Type",
    "Www-Authenticate") are in canonical form already. *)

Module Header.
Definition Get (h : gmap string (list string)) (key : string) : string :=
  match h !! key with
  | Some (v :: _) => v
  | _ => ""
  end.
Definition Set_ (h : gmap string (list string)) (key value : string)
  : gmap string (list string) :=
  <[key := [value]]> h.
End Header.

Record Request : Type := mkRequest {
  Method : string;
  URL : string;
  ReqHeader : gmap string (list string);
}.

Definition Request_Header_Set (key value : string) (req : Request) : Request :=
  mkRequest (Method req) (URL req) (Header.Set_ (ReqHeader req) key value).

Record Response : Type := mkResponse {
  StatusCode : Z;
  Status : string;                       (* e.g. "404 Not Found" *)
  RespHeader : gmap string (list string);
  Body : string;
}.

Module url.
(** A parsed URL: the client only assigns [RawQuery]. *)
Record URL : Type := mk { parsed : string; RawQuery : string }.
Definition set_RawQuery (q : string) (u : URL) : URL := mk (parsed u) q.
End url.

(** ** The environment: what the external collaborators do

    The HTTP transport answers a request given the requests sent before it
    (so a server may change its answer over time); net/url and the JSON
    decoder are functions of their input. *)

Record Env : Type := mkEnv {
  transport : list Request -> Request -> error + Response;
  newRequestError : string -> string -> option error;
  url_Parse : string -> error + url.URL;
  url_String : url.URL -> string;
  url_QueryEscape : string -> string;
  basicAuth : string -> string -> string;
  decode_Token : string -> error + string;
  decode_Index : string -> error + Index.t;
  decode_Manifest : string -> error + Manifest.t;
  decode_Image : string -> error + Image.t;
}.

(** ** The state: the repository handle and the requests sent so far *)

Record World : Type := mkWorld {
  handle : Repository;
  wire : list Request;
}.

Definition M (A : Type) : Type := World -> Outcome A * World.

#[global] Instance M_ret : MRet M := fun _ a w => (Done a, w).
#[global] Instance M_bind : MBind M := fun _ _ f m w =>
  match m w with
  | (Done a, w') => f a w'
  | (Panic msg, w') => (Panic msg, w')
  end.

Definition lift {A} (o : Outcome A) : M A := fun w => (o, w).
Definition get_c : M Repository := fun w => (Done (handle w), w).
Definition put_token (t : string) : M unit :=
  fun w => (Done tt, mkWorld (set_token t (handle w)) (wire w)).

(** ** The part regexp and the challenge parser *)

Module Regexp.

(** The double quote, byte 34. *)
Definition dquote : ascii := ascii_of_nat 34.

Definition in_range (lo hi : nat) (a : ascii) : bool :=
  (lo <=? nat_of_ascii a)%nat && (nat_of_ascii a <=? hi)%nat.

(** The class of letters, digits and the underscore. *)
Definition is_word (a : ascii) : bool :=
  in_range 97 122 a || in_range 65 90 a || in_range 48 57 a
  || in_range 95 95 a.

(** The class of everything but the double quote. *)
Definition not_quote (a : ascii) : bool := negb (Ascii.eqb a dquote).

(** Length of the longest prefix made of characters of a class. *)
Fixpoint span (p : ascii -> bool) (s : string) : nat :=
  match s with
  | String a s' => if p a then S (span p s') else 0
  | EmptyString => 0
  end.

(** A match of [partRegexp] (one or more word characters, an equals sign,
    a quote, any characters but a quote, a quote) starting at the first
    byte of [s]: its length.  Both repetitions are greedy and what follows
    each of them is outside its class, so the longest run is the only
    candidate. *)
Definition match_here (s : string) : option nat :=
  let n := span is_word s in
  if (n =? 0)%nat then None
  else
    match drop_str n s with
    | String e (String q v) =>
        if Ascii.eqb e "="%char && Ascii.eqb q dquote then
          let m := span not_quote v in
          match drop_str m v with
          | String q' _ =>
              if Ascii.eqb q' dquote then Some (n + 2 + m + 1) else None
          | EmptyString => None
          end
        else None
    | _ => None
    end.

(** [partRegexp.FindAllString(s, -1)]: the successive leftmost matches,
    not overlapping.  [skip] counts the bytes of the last match still to
    pass over. *)
Fixpoint FindAllString_from (skip : nat) (s : string) : list string :=
  match s with
  | EmptyString => []
  | String _ s' =>
      match skip with
      | S k => FindAllString_from k s'
      | 0 =>
          match match_here s with
          | Some len => take_str len s :: FindAllString_from (len - 1) s'
          | None => FindAllString_from 0 s'
          end
      end
  end.

Definition FindAllString (s : string) : list string :=
  FindAllString_from 0 s.

End Regexp.

(** The loop of [parseAuthHeader] over the parts, filling the map. *)
Fixpoint parseAuthHeader_range (parts : list string)
    (parsed : gmap string string) : Outcome (gmap string string) :=
  match parts with
  | [] => mret parsed
  | part :: rest =>
      let kv := Strings.SplitN part "=" 2 in
      k ← index kv 0;
      v ← index kv 1;
      v' ← slice v 1 (Z.of_nat (String.length v) - 1);
      parseAuthHeader_range rest (<[k := v']> parsed)
  end.

Definition parseAuthHeader (bearer : string)
  : Outcome (string * string * string) :=
  parsed ← parseAuthHeader_range (Regexp.FindAllString bearer) ∅;
  mret (default "" (parsed !! "realm"),
        default "" (parsed !! "service"),
        default "" (parsed !! "scope")).

Definition parseContentType (contentType : string) : Outcome string :=
  let i := Strings.IndexByte contentType ";"%char in
  if negb (i =? -1)%Z then slice contentType 0 i else mret contentType.

Definition match_ (want got : string) : bool :=
  (* if want is empty, skip verify *)
  (want =? "") || (want =? got).

Definition setAuthHeader (c : Repository) (req : Request) : Request :=
  if (user c =? "AWS") && negb (password c =? "") then
    (* ECR *)
    Request_Header_Set "Authorization" ("Basic " +:+ password c) req
  else if negb (token c =? "") then
    Request_Header_Set "Authorization" ("Bearer " +:+ token c) req
  else req.

(** ** The methods of [Repository] *)

Section Client.

Context (env : Env).

(** [c.client.Do(req)]: the request goes on the wire, the transport
    answers. *)
Definition client_Do (req : Request) : M (error + Response) :=
  fun w => (Done (transport env (wire w) req),
            mkWorld (handle w) (wire w ++ [req])).

(** [http.NewRequest(method, url, nil)] *)
Definition NewRequest (method u : string) : error + Request :=
  match newRequestError env method u with
  | Some err => inl err
  | None => inr (mkRequest method u ∅)
  end.

(** [req.SetBasicAuth(username, password)] *)
Definition SetBasicAuth (username passwd : string) (req : Request) : Request :=
  Request_Header_Set "Authorization"
    ("Basic " +:+ basicAuth env username passwd) req.

Definition login (endpoint service scope : string) : M (option error) :=
  match url_Parse env endpoint with
  | inl err => mret (Some err)
  | inr u =>
      let u := url.set_RawQuery
                 (Strings.Join
                    ["service=" +:+ url_QueryEscape env service;
                     "scope=" +:+ url_QueryEscape env scope] "&") u in
      match NewRequest "GET" (url_String env u) with
      | inl err => mret (Some err)
      | inr req =>
          c ← get_c;
          let req := if negb (user c =? "") && negb (password c =? "")
                     then SetBasicAuth (user c) (password c) req
                     else req in
          r ← client_Do req;
          match r with
          | inl err => mret (Some err)
          | inr resp =>
              if negb (StatusCode resp =? 200)%Z then
                mret (Some (errors_New ("login failed " +:+ Status resp)))
              else
                match decode_Token env (Body resp) with
                | inl err => mret (Some err)
                | inr body_Token =>
                    if body_Token =? "" then
                      mret (Some (errors_New "response does not contains token"))
                    else
                      _ ← put_token body_Token;
                      mret None
                end
          end
      end
  end.

Definition fetchManifests (method tag : string) : M (error + Response) :=
  c ← get_c;
  let u := "https://" +:+ host c +:+ "/v2/" +:+ repo c
           +:+ "/manifests/" +:+ tag in
  match NewRequest method u with
  | inl err => mret (inl err)
  | inr req =>
      let req := Request_Header_Set "Accept"
                   (Strings.Join
                      [mediaTypeDockerSchema2ManifestList;
                       ocispec.MediaTypeImageIndex;
                       mediaTypeDockerSchema2Manifest;
                       ocispec.MediaTypeImageManifest] ", ") req in
      let req := setAuthHeader c req in
      client_Do req
  end.

Definition getAvailability (tag : string) : M (error + Response) :=
  r ← fetchManifests "HEAD" tag;
  match r with
  | inl err => mret (inl err)
  | inr resp => mret (inr resp)
  end.

(** Returns the media type and the body of the response. *)
Definition getManifests (tag : string) : M (error + string * string) :=
  r ← fetchManifests "GET" tag;
  match r with
  | inl err => mret (inl err)
  | inr resp =>
      if negb (StatusCode resp =? 200)%Z then
        mret (inl (errors_New (Status resp)))
      else
        mediaType ← lift (parseContentType
                            (Header.Get (RespHeader resp) "Content-Type"));
        mret (inr (mediaType, Body resp))
  end.

(** The error of [http.NewRequest] is dropped here: on a failure the
    request is nil and setting its header panics. *)
Definition getImageConfig (digest : string) : M (error + string) :=
  c ← get_c;
  let u := "https://" +:+ host c +:+ "/v2/" +:+ repo c
           +:+ "/blobs/" +:+ digest in
  match NewRequest "GET" u with
  | inl _ => lift (Panic "nil pointer dereference")
  | inr req =>
      let req := Request_Header_Set "Accept"
                   (Strings.Join
                      ["application/vnd.docker.container.image.v1+json";
                       ocispec.MediaTypeImageConfig] ", ") req in
      let req := setAuthHeader c req in
      r ← client_Do req;
      match r with
      | inl err => mret (inl err)
      | inr resp =>
          if negb (StatusCode resp =? 200)%Z then
            mret (inl (errors_New (Status resp)))
          else mret (inr (Body resp))
      end
  end.

(** The loop over [manifestList.Manifests]: [true] when it returns nil
    from inside the loop, [false] when it runs to the end. *)
Fixpoint range_Manifests (arch os : string) (descs : list Descriptor.t) : bool :=
  match descs with
  | [] => false
  | desc :: rest =>
      match Descriptor.Platform desc with
      | None =>
          (* regard as non platform-specific image *)
          true
      | Some p =>
          if match_ arch (Platform.Architecture p) && match_ os (Platform.OS p)
          then true
          else range_Manifests arch os rest
      end
  end.

(** [HasPlatformImage] returns an image tag for arch/os exists or not in
    the repository. *)
Definition HasPlatformImage (tag arch os : string) : M (option error) :=
  r ← getManifests tag;
  match r with
  | inl err => mret (Some err)
  | inr (mediaType, rc) =>
      let no_image := fmt_Errorf ("no image for " +:+ arch +:+ "/" +:+ os) in
      if (mediaType =? ocispec.MediaTypeImageIndex)
         || (mediaType =? mediaTypeDockerSchema2ManifestList) then
        match decode_Index env rc with
        | inl err =>
            mret (Some (fmt_Errorf_w "manifest list decode error: " err))
        | inr manifestList =>
            if range_Manifests arch os (Index.Manifests manifestList)
            then mret None
            else mret (Some no_image)
        end
      else if (mediaType =? mediaTypeDockerSchema2Manifest)
              || (mediaType =? ocispec.MediaTypeImageManifest) then
        match decode_Manifest env rc with
        | inl err => mret (Some (fmt_Errorf_w "manifest decode error: " err))
        | inr manifest =>
            if match Descriptor.Platform (Manifest.Config manifest) with
               | Some p =>
                   match_ arch (Platform.OS p)
                   && match_ os (Platform.Architecture p)
               | None => false
               end
            then mret None
            else
              (* fallback to image config *)
              r ← getImageConfig (Descriptor.Digest (Manifest.Config manifest));
              match r with
              | inl err => mret (Some err)
              | inr rc =>
                  match decode_Image env rc with
                  | inl err =>
                      mret (Some (fmt_Errorf_w "image config decode error: " err))
                  | inr image =>
                      if match_ arch (Image.Architecture image)
                         && match_ os (Image.OS image)
                      then mret None
                      else mret (Some no_image)
                  end
              end
        end
      else if (mediaType =? "application/vnd.docker.distribution.manifest.v1+prettyjws")
              || (mediaType =? "application/vnd.docker.distribution.manifest.v1+json") then
        mret (Some ErrDeprecatedManifest)
      else mret (Some (fmt_Errorf ("unknown MediaType " +:+ mediaType)))
  end.

(** The loop of [HasImage], entered with [tries] tries left. *)
Fixpoint HasImage_for (tries : nat) (tag : string) : M (bool * option error) :=
  match tries with
  | 0 => mret (false, Some (errors_New "aborted"))
  | S tries =>
      r ← getAvailability tag;
      match r with
      | inl err => mret (false, Some err)
      | inr resp =>
          if (StatusCode resp =? 401)%Z then
            let h := Header.Get (RespHeader resp) "Www-Authenticate" in
            if Strings.HasPrefix h "Bearer " then
              auth ← lift (index (Strings.SplitN h " " 2) 1);
              '(endpoint, service, scope) ← lift (parseAuthHeader auth);
              e ← login endpoint service scope;
              match e with
              | Some err => mret (false, Some err)
              | None => HasImage_for tries tag
              end
            else HasImage_for tries tag
          else if (StatusCode resp =? 200)%Z then mret (true, None)
          else mret (false, Some (errors_New (Status resp)))
      end
  end.

(** [HasImage] returns an image tag exists or not in the repository. *)
Definition HasImage (tag : string) : M (bool * option error) :=
  HasImage_for 2 tag.

End Client.

(** ** Vocabulary of the statements *)

(** [occurs a s]: the byte [a] is somewhere in [s]. *)
Fixpoint occurs (a : ascii) (s : string) : Prop :=
  match s with
  | EmptyString => False
  | String b s' => a = b \/ occurs a s'
  end.

(** The case [http.StatusUnauthorized] of the switch in [HasImage], on its
    own: what the call does with a 401 response before it tries again.  It
    yields the error that ends the call, if any. *)
Definition answer_challenge (env : Env) (resp : Response) : M (option error) :=
  let h := Header.Get (RespHeader resp) "Www-Authenticate" in
  if Strings.HasPrefix h "Bearer " then
    auth ← lift (index (Strings.SplitN h " " 2) 1);
    '(endpoint, service, scope) ← lift (parseAuthHeader auth);
    login env endpoint service scope
  else mret None.

(** The requests a step put on the wire. *)
Definition sent (w w' : World) (reqs : list Request) : Prop :=
  wire w' = (wire w ++ reqs)%list.


(** The Accept value of a manifest request as the code builds it. *)
Definition manifest_Accept : string :=
  Strings.Join
    [mediaTypeDockerSchema2ManifestList;
     ocispec.MediaTypeImageIndex;
     mediaTypeDockerSchema2Manifest;
     ocispec.MediaTypeImageManifest] ", ".

(** The Accept value in the order the specification lists: the OCI image
    index, the Docker manifest list, the OCI image manifest, the Docker
    schema 2 manifest. *)
Definition spec_manifest_Accept : string :=
  Strings.Join
    [ocispec.MediaTypeImageIndex;
     mediaTypeDockerSchema2ManifestList;
     ocispec.MediaTypeImageManifest;
     mediaTypeDockerSchema2Manifest] ", ".

(** ** Scripted registries, to run the client on *)

Module Scenario.

Definition quoted (s : string) : string :=
  String Regexp.dquote (s +:+ String Regexp.dquote "").

Definition hdr (key value : string) : gmap string (list string) :=
  {[ key := [value] ]}.

Definition bearer_challenge : string :=
  "Bearer realm=" +:+ quoted "https://auth.example.com/token"
  +:+ ",service=" +:+ quoted "registry.example.com"
  +:+ ",scope=" +:+ quoted "repository:team/app:pull".

Definition basic_challenge : string :=
  "Basic realm=" +:+ quoted "registry.example.com".

Definition ok (contentType body : string) : Response :=
  mkResponse 200 "200 OK" (hdr "Content-Type" contentType) body.
Definition unauthorized (challenge : string) : Response :=
  mkResponse 401 "401 Unauthorized" (hdr "Www-Authenticate" challenge) "".
Definition not_found : Response := mkResponse 404 "404 Not Found" ∅ "".
Definition forbidden : Response := mkResponse 403 "403 Forbidden" ∅ "".

(** The documents behind the toy bodies. *)
Definition arm64_linux : Platform.t := Platform.mk "arm64" "linux".
Definition amd64_linux : Platform.t := Platform.mk "amd64" "linux".

Definition index_doc : Index.t :=
  Index.mk
    [Descriptor.mk mediaTypeDockerSchema2Manifest "sha256:01" (Some amd64_linux);
     Descriptor.mk mediaTypeDockerSchema2Manifest "sha256:02" None;
     Descriptor.mk mediaTypeDockerSchema2Manifest "sha256:03" (Some arm64_linux)].

Definition manifest_doc : Manifest.t :=
  Manifest.mk
    (Descriptor.mk "application/vnd.docker.container.image.v1+json"
       "sha256:c0" (Some arm64_linux))
    [].

Definition image_doc : Image.t := Image.mk "arm64" "linux".

(** An index whose descriptors all have a platform, and a manifest without
    one. *)
Definition platform_index_doc : Index.t :=
  Index.mk
    [Descriptor.mk mediaTypeDockerSchema2Manifest "sha256:01" (Some amd64_linux);
     Descriptor.mk mediaTypeDockerSchema2Manifest "sha256:03" (Some arm64_linux)].

Definition plain_manifest_doc : Manifest.t :=
  Manifest.mk
    (Descriptor.mk "application/vnd.docker.container.image.v1+json"
       "sha256:c0" None)
    [].

(** A registry: [manifests n] answers the manifest request that comes
    after [n] earlier ones; [blob] answers every blob request and [auth]
    every request to the token endpoint.  The body of a token response
    is the token; the other bodies name one of the documents above. *)
Definition registry (manifests : nat -> Response) (blob auth : Response)
  : Env :=
  {| transport := fun earlier req =>
       if Strings.Contains (URL req) "/manifests/" then
         inr (manifests
                (length (filter (fun r => Strings.Contains (URL r) "/manifests/"
                                          = true) earlier)))
       else if Strings.Contains (URL req) "/blobs/" then inr blob
       else inr auth;
     newRequestError := fun _ _ => None;
     url_Parse := fun endpoint => inr (url.mk endpoint "");
     url_String := fun u => url.parsed u +:+ "?" +:+ url.RawQuery u;
     url_QueryEscape := fun s => s;
     basicAuth := fun u p => u +:+ ":" +:+ p;
     decode_Token := fun body => inr body;
     decode_Index := fun body =>
       if body =? "index" then inr index_doc
       else if body =? "platform index" then inr platform_index_doc
       else inl (foreign "unexpected end of JSON input");
     decode_Manifest := fun body =>
       if body =? "manifest" then inr manifest_doc
       else if body =? "plain manifest" then inr plain_manifest_doc
       else inl (foreign "unexpected end of JSON input");
     decode_Image := fun body =>
       if body =? "image" then inr image_doc
       else inl (foreign "unexpected end of JSON input") |}.

(** A fresh handle on registry.example.com/team/app, nothing sent yet. *)
Definition start : World :=
  mkWorld (mkRepository "registry.example.com" "team/app" "" "" "") [].

(** Every probe is answered 401 with a Bearer challenge, and every token
    request with a token. *)
Definition always_challenging : Env :=
  registry (fun _ => unauthorized bearer_challenge) not_found (ok "application/json" "t0ken").

(** The first probe is answered 401 with a Basic challenge, the next 200. *)
Definition basic_then_ok : Env :=
  registry (fun n => match n with
                     | 0 => unauthorized basic_challenge
                     | _ => ok mediaTypeDockerSchema2Manifest ""
                     end) not_found forbidden.

(** The first probe is answered 401 with a Bearer challenge, the next 200. *)
Definition bearer_then_ok : Env :=
  registry (fun n => match n with
                     | 0 => unauthorized bearer_challenge
                     | _ => ok mediaTypeDockerSchema2Manifest ""
                     end) not_found (ok "application/json" "t0ken").

(** The tag is not there. *)
Definition missing : Env := registry (fun _ => not_found) not_found forbidden.

(** The token endpoint refuses, or answers without a token. *)
Definition login_refused : Env :=
  registry (fun _ => unauthorized bearer_challenge) not_found forbidden.
Definition login_without_token : Env :=
  registry (fun _ => unauthorized bearer_challenge) not_found
           (ok "application/json" "").

(** A single manifest annotated arm64/linux whose config blob cannot be
    fetched. *)
Definition single_manifest : Env :=
  registry (fun _ => ok mediaTypeDockerSchema2Manifest "manifest")
           not_found forbidden.

(** An index whose second descriptor has no platform. *)
Definition image_index : Env :=
  registry (fun _ => ok ocispec.MediaTypeImageIndex "index")
           not_found forbidden.

(** An index of amd64/linux and arm64/linux images. *)
Definition platform_index : Env :=
  registry (fun _ => ok mediaTypeDockerSchema2ManifestList "platform index")
           not_found forbidden.

(** A single manifest without a platform; its config blob says
    arm64/linux. *)
Definition plain_manifest : Env :=
  registry (fun _ => ok ocispec.MediaTypeImageManifest "plain manifest")
           (ok ocispec.MediaTypeImageConfig "image") forbidden.

(** A schema 1 manifest, its content type carrying a parameter. *)
Definition schema1 : Env :=
  registry (fun _ => ok "application/vnd.docker.distribution.manifest.v1+prettyjws; charset=utf-8" "")
           not_found forbidden.

End Scenario.

(** ** Vocabulary of the further properties *)

(** Every byte of [s] is in the class [p]. *)
Fixpoint all_bytes (p : ascii -> bool) (s : string) : bool :=
  match s with
  | EmptyString => true
  | String a s' => p a && all_bytes p s'
  end.

(** A value between two double quotes. *)
Definition in_quotes (value : string) : string :=
  String Regexp.dquote (value +:+ String Regexp.dquote "").

(** The text of a challenge: before each part a gap, then the key, an
    equals sign and the value in quotes; [tail] ends the text. *)
Fixpoint challenge_text (parts : list (string * string * string))
    (tail : string) : string :=
  match parts with
  | [] => tail
  | (gap, key, value) :: rest =>
      gap +:+ key +:+ "=" +:+ in_quotes value +:+ challenge_text rest tail
  end.

(** The text of a part without its gap. *)
Definition part_text (part : string * string * string) : string :=
  let '(_, key, value) := part in key +:+ "=" +:+ in_quotes value.

(** The key and the value of a part. *)
Definition key_value (part : string * string * string) : string * string :=
  (part.1.2, part.2).

(** A part the regexp finds as written: the gap and the tail hold no word
    character, the key is a non-empty word, the value holds no quote. *)
Definition well_formed_part (part : string * string * string) : bool :=
  let '(gap, key, value) := part in
  all_bytes (fun a => negb (Regexp.is_word a)) gap
  && negb (key =? "") && all_bytes Regexp.is_word key
  && all_bytes Regexp.not_quote value.

(** The value the last part with this key gives, the empty string when no
    part has the key. *)
Definition last_value (key : string) (parts : list (string * string * string))
  : string :=
  fold_left (fun acc (part : string * string * string) =>
               let '(_, k, v) := part in if k =? key then v else acc)
            parts "".

(** A descriptor of an index that lets the loop of [HasPlatformImage]
    return nil: it has no platform, or its platform matches. *)
Definition descriptor_accepts (arch os : string) (desc : Descriptor.t) : bool :=
  match Descriptor.Platform desc with
  | None => true
  | Some p =>
      match_ arch (Platform.Architecture p) && match_ os (Platform.OS p)
  end.

(** The GET of the manifest of [tag] was answered [resp], with status 200
    and a content type whose media type is [mediaType]. *)
Definition manifest_response (env : Env) (tag : string) (w w1 : World)
    (resp : Response) (mediaType : string) : Prop :=
  fetchManifests env "GET" tag w = (Done (inr resp), w1)
  /\ StatusCode resp = 200%Z
  /\ parseContentType (Header.Get (RespHeader resp) "Content-Type")
     = Done mediaType.

(** The error of [HasPlatformImage] when nothing matches. *)
Definition no_image (arch os : string) : error :=
  fmt_Errorf ("no image for " +:+ arch +:+ "/" +:+ os).

(** The prefix of every URL of the registry API for a handle. *)
Definition registry_base (c : Repository) : string :=
  "https://" +:+ host c +:+ "/v2/" +:+ repo c.

(** The handle sends HTTP Basic credentials to the registry: the username
    is AWS and a password is stored. *)
Definition static_credentials (c : Repository) : Prop :=
  user c = "AWS" /\ password c <> "".

(** ** More scripted registries *)

Module Fixture.

(** The manifest is served as a web page. *)
Definition web_page : Env :=
  Scenario.registry (fun _ => Scenario.ok "text/html; charset=utf-8" "<html>")
                    Scenario.not_found Scenario.forbidden.

(** An index whose body does not decode. *)
Definition broken_index : Env :=
  Scenario.registry (fun _ => Scenario.ok ocispec.MediaTypeImageIndex "{")
                    Scenario.not_found Scenario.forbidden.

(** A single manifest without a platform whose config blob is missing. *)
Definition missing_config : Env :=
  Scenario.registry
    (fun _ => Scenario.ok ocispec.MediaTypeImageManifest "plain manifest")
    Scenario.not_found Scenario.forbidden.

(** A manifest whose config digest holds a space, and an HTTP library that
    rejects a URL with a space in it. *)
Definition spaced_digest_doc : Manifest.t :=
  Manifest.mk
    (Descriptor.mk "application/vnd.docker.container.image.v1+json"
       "sha256:c0 c1" None)
    [].

Definition spaced_digest : Env :=
  let base :=
    Scenario.registry
      (fun _ => Scenario.ok mediaTypeDockerSchema2Manifest "manifest")
      Scenario.not_found Scenario.forbidden in
  {| transport := transport base;
     newRequestError := fun _ u =>
       if Strings.Contains u " "
       then Some (foreign "invalid character in URL") else None;
     url_Parse := url_Parse base;
     url_String := url_String base;
     url_QueryEscape := url_QueryEscape base;
     basicAuth := basicAuth base;
     decode_Token := decode_Token base;
     decode_Index := decode_Index base;
     decode_Manifest := fun _ => inr spaced_digest_doc;
     decode_Image := decode_Image base |}.

(** A handle with a username other than AWS, a password and a token. *)
Definition with_token : World :=
  mkWorld (mkRepository "registry.example.com" "team/app" "alice" "s3cret"
             "t0ken") [].

End Fixture.

(** [handle_kept c c']: the handle [c'] is [c] but for its token, which is
    the token of [c] or a token that is not empty. *)
Definition handle_kept (c c' : Repository) : Prop :=
  host c' = host c /\ repo c' = repo c /\ user c' = user c
  /\ password c' = password c
  /\ (token c' = token c \/ token c' <> "").

(** The Authorization header of a request to the registry, as the handle
    fixes it. *)
Definition authorization_of (c : Repository) : option (list string) :=
  if (user c =? "AWS") && negb (password c =? "") then
    Some ["Basic " +:+ password c]
  else if negb (token c =? "") then Some ["Bearer " +:+ token c]
  else None.

(** ** Proof tactics *)

(** Unfolds the binds of the two monads. *)
Ltac run :=
  repeat (progress (unfold mbind, mret, M_bind, M_ret, Outcome_bind,
                    Outcome_ret, lift, get_c, put_token, client_Do;
                    cbn beta iota zeta)).

(** * Properties *)

Close Scope string_scope.

(** ** Byte strings *)

Lemma prefix_empty (s : string) : String.prefix "" s = true.
Proof. by destruct s. Qed.

Section StringFacts.

Variable a : ascii.

Let sep : string := String a EmptyString.

(** Where [find] stops is the first occurrence of the byte. *)
Lemma find_byte_spec (s : string) :
  match Strings.find sep s with
  | Some n =>
      exists seg rest,
        s = seg +:+ String a rest /\ ~ occurs a seg /\ n = String.length seg
        /\ take_str n s = seg /\ drop_str (n + 1) s = rest
  | None => ~ occurs a s
  end.
Proof.
  induction s as [|b s IH]; simpl.
  - tauto.
  - destruct (Ascii.ascii_dec a b) as [Heq|Hne]; simpl.
    + subst b. rewrite prefix_empty. exists EmptyString, s. simpl. tauto.
    + destruct (Strings.find sep s) as [n|]; simpl.
      * destruct IH as (seg & rest & -> & Hno & -> & Ht & Hd).
        exists (String b seg), rest. simpl. rewrite Ht, Hd.
        repeat split; tauto.
      * tauto.
Qed.

Lemma find_byte_first (seg rest : string) :
  ~ occurs a seg ->
  Strings.find sep (seg +:+ String a rest) = Some (String.length seg).
Proof.
  induction seg as [|b seg IH]; simpl; intros Hno.
  - destruct (Ascii.ascii_dec a a); [by rewrite prefix_empty | done].
  - destruct (Ascii.ascii_dec a b) as [Heq|Hne]; [tauto|].
    rewrite IH by tauto. reflexivity.
Qed.

Lemma occurs_middle (seg rest : string) : occurs a (seg +:+ String a rest).
Proof. induction seg; simpl; tauto. Qed.

Lemma find_byte_None (s : string) :
  Strings.find sep s = None <-> ~ occurs a s.
Proof.
  pose proof (find_byte_spec s) as H.
  destruct (Strings.find sep s) as [n|]; [|tauto].
  destruct H as (seg & rest & -> & _).
  split; [discriminate|]. intros Hno. exfalso. apply Hno, occurs_middle.
Qed.

Lemma Contains_byte (s : string) :
  Strings.Contains s sep = true <-> occurs a s.
Proof.
  unfold Strings.Contains, Strings.Index.
  pose proof (find_byte_spec s) as H.
  destruct (Strings.find sep s) as [n|].
  - destruct H as (seg & rest & -> & _).
    split; [intros _; apply occurs_middle | intros _; apply Z.leb_le; lia].
  - split; [discriminate | tauto].
Qed.

End StringFacts.

(** ** Reference resolution *)

Lemma SplitN_byte_2 (a : ascii) (s : string) :
  Strings.SplitN s (String a "") 2 =
    match Strings.find (String a "") s with
    | Some m => [take_str m s; drop_str (m + 1) s]
    | None => [s]
    end.
Proof. reflexivity. Qed.

(** The first segment of a reference is determined by the reference. *)
Lemma first_segment_unique (a : ascii) (seg rest s : string) :
  s = seg +:+ String a rest -> ~ occurs a seg ->
  Strings.find (String a "") s = Some (String.length seg)
  /\ take_str (String.length seg) s = seg
  /\ drop_str (String.length seg + 1) s = rest.
Proof.
  intros -> Hno. split; [by apply find_byte_first|].
  clear Hno. induction seg as [|b seg IH]; simpl; [done|].
  destruct IH as [-> ->]. done.
Qed.

(** C7. Reference resolution is total and deterministic.  [New] never
    panics and is a function of its arguments; when the image string is
    [seg/rest] where [seg], its first segment, holds a dot, the host is
    [seg] and the repository path is [rest]; for every other image string
    the host is the Docker Hub host, and the path is the image string, with
    the prefix library/ when it holds no slash. *)
Theorem New_resolves_reference (image usr pw : string) :
  exists c : Repository,
    New image usr pw = Done c
    /\ user c = usr /\ password c = pw /\ token c = ""
    /\ (forall seg rest : string,
          image = seg +:+ "/" +:+ rest ->
          ~ occurs "/" seg -> occurs "." seg ->
          host c = seg /\ repo c = rest)
    /\ (~ (exists seg rest : string,
             image = seg +:+ "/" +:+ rest
             /\ ~ occurs "/" seg /\ occurs "." seg) ->
        host c = dockerHubHost
        /\ (~ occurs "/" image -> repo c = "library/" +:+ image)
        /\ (occurs "/" image -> repo c = image)).
Proof.
  unfold New. rewrite SplitN_byte_2.
  pose proof (find_byte_spec "/" image) as Hfind.
  pose proof (Contains_byte "/" image) as Hslash.
  destruct (Strings.find "/" image) as [n|] eqn:En.
  - destruct Hfind as (seg0 & rest0 & Himg & Hno0 & Hn & Ht & Hd).
    rewrite Ht, Hd. cbn [index lookup list_lookup mbind Outcome_bind].
    pose proof (Contains_byte "." seg0) as Hdot.
    destruct (Strings.Contains seg0 ".") eqn:Ed; cbn.
    + eexists. split; [reflexivity|]. cbn. split_and!; try done.
      * intros seg rest Hsr Hno Hd'.
        destruct (first_segment_unique "/" seg rest image Hsr Hno)
          as (Hf & Ht' & Hd'').
        rewrite En in Hf. injection Hf as ->. split; congruence.
      * intros Hnone. exfalso. apply Hnone. exists seg0, rest0. tauto.
    + assert (Hocc : occurs "/" image) by (rewrite Himg; apply occurs_middle).
      destruct (Strings.Contains image "/") eqn:Ec;
        [|apply Hslash in Hocc; congruence].
      eexists. split; [reflexivity|]. cbn. split_and!; try done.
      intros seg rest Hsr Hno Hd'. exfalso.
      destruct (first_segment_unique "/" seg rest image Hsr Hno)
        as (Hf & Ht' & _).
      rewrite En in Hf. injection Hf as ->.
      assert (Hseg : seg0 = seg) by congruence.
      rewrite Hseg in Hdot. apply Hdot in Hd'. discriminate Hd'.
  - cbn [index lookup list_lookup mbind Outcome_bind length].
    rewrite andb_false_r.
    destruct (Strings.Contains image "/") eqn:Ec; [tauto|]. cbn.
    eexists. split; [reflexivity|]. cbn. split_and!; try done.
    intros seg rest Hsr _ _. exfalso. apply Hfind. rewrite Hsr.
    apply occurs_middle.
Qed.

Lemma New_resolves_reference_witness :
  exists c : Repository,
    New "registry.example.com/team/app" "" "" = Done c
    /\ host c = "registry.example.com" /\ repo c = "team/app".
Proof.
  destruct (New_resolves_reference "registry.example.com/team/app" "" "")
    as (c & Hc & _ & _ & _ & Hcustom & _).
  exists c. split; [exact Hc|].
  apply (Hcustom "registry.example.com" "team/app").
  - reflexivity.
  - simpl. intros H.
    repeat (destruct H as [H|H]; [discriminate H|]). exact H.
  - simpl. do 8 right. left. reflexivity.
Defined.

(** ** The challenge parser never panics *)

Lemma take_str_add (n k : nat) (s : string) :
  take_str (n + k) s = take_str n s +:+ take_str k (drop_str n s).
Proof.
  revert s. induction n as [|n IH]; intros s; simpl.
  - reflexivity.
  - destruct s as [|b s]; simpl; [by destruct k | by rewrite IH].
Qed.

Lemma span_take_all (p : ascii -> bool) (a : ascii) (s : string) :
  p a = false -> ~ occurs a (take_str (Regexp.span p s) s).
Proof.
  intros Hpa. induction s as [|b s IH]; simpl; [tauto|].
  destruct (p b) eqn:Eb; simpl; [|tauto].
  intros [->|H]; [congruence | tauto].
Qed.

(** What a match of the part regexp looks like: a key without an equals
    sign, the equals sign, and a value of at least two bytes (its quotes). *)
Lemma match_here_shape (s : string) (len : nat) :
  Regexp.match_here s = Some len ->
  exists k v : string,
    take_str len s = k +:+ String "=" v /\ ~ occurs "=" k
    /\ (2 <= String.length v)%nat.
Proof.
  unfold Regexp.match_here.
  destruct (Regexp.span Regexp.is_word s =? 0)%nat; [discriminate|].
  destruct (drop_str (Regexp.span Regexp.is_word s) s)
    as [|e [|q v0]] eqn:Edrop; try discriminate.
  destruct (Ascii.eqb e "=") eqn:Ee; [|discriminate].
  destruct (Ascii.eqb q Regexp.dquote) eqn:Eq; [|discriminate].
  apply Ascii.eqb_eq in Ee. subst e. simpl.
  destruct (drop_str (Regexp.span Regexp.not_quote v0) v0)
    as [|q' rest] eqn:Edrop2; [discriminate|].
  destruct (Ascii.eqb q' Regexp.dquote); [|discriminate].
  intros [= <-].
  exists (take_str (Regexp.span Regexp.is_word s) s),
         (String q (take_str (Regexp.span Regexp.not_quote v0 + 1) v0)).
  split; [|split].
  - rewrite <- !Nat.add_assoc, take_str_add, Edrop. reflexivity.
  - by apply span_take_all.
  - destruct v0 as [|b v0].
    + simpl in Edrop2. discriminate.
    + rewrite Nat.add_1_r. simpl. lia.
Qed.

Lemma FindAllString_from_parts (s : string) (skip : nat) :
  Forall (fun part => exists s' len,
            Regexp.match_here s' = Some len /\ part = take_str len s')
         (Regexp.FindAllString_from skip s).
Proof.
  revert skip. induction s as [|b s IH]; intros skip; simpl.
  - constructor.
  - destruct skip as [|k]; [|apply IH].
    destruct (Regexp.match_here (String b s)) as [len|] eqn:E; [|apply IH].
    constructor; [eauto | apply IH].
Qed.

Lemma parseAuthHeader_range_total (parts : list string) :
  Forall (fun part => exists s' len,
            Regexp.match_here s' = Some len /\ part = take_str len s') parts ->
  forall parsed, exists parsed',
    parseAuthHeader_range parts parsed = Done parsed'.
Proof.
  induction 1 as [|part parts (s' & len & Hm & ->) _ IH]; intros parsed;
    cbn [parseAuthHeader_range].
  - by eexists.
  - destruct (match_here_shape s' len Hm) as (k & v & -> & Hno & Hlen).
    destruct (first_segment_unique "=" k v _ eq_refl Hno) as (Hf & Ht & Hd).
    rewrite SplitN_byte_2, Hf, Ht, Hd.
    cbn [index lookup list_lookup mbind Outcome_bind].
    unfold slice.
    replace ((0 <=? 1)%Z && (1 <=? Z.of_nat (String.length v) - 1)%Z
             && (Z.of_nat (String.length v) - 1 <=? Z.of_nat (String.length v))%Z)
      with true.
    + apply IH.
    + symmetry. rewrite !andb_true_iff, !Z.leb_le. lia.
Qed.

Lemma parseAuthHeader_total (bearer : string) :
  exists endpoint service scope : string,
    parseAuthHeader bearer = Done (endpoint, service, scope).
Proof.
  unfold parseAuthHeader, Regexp.FindAllString.
  destruct (parseAuthHeader_range_total _
              (FindAllString_from_parts bearer 0) ∅) as [parsed ->].
  cbn. eauto.
Qed.

Lemma parseContentType_total (contentType : string) :
  exists mediaType : string, parseContentType contentType = Done mediaType.
Proof.
  unfold parseContentType, Strings.IndexByte, Strings.Index.
  pose proof (find_byte_spec ";" contentType) as H.
  destruct (Strings.find ";" contentType) as [n|]; simpl; [|eauto].
  destruct H as (seg & rest & -> & _ & -> & _).
  replace (Z.of_nat (String.length seg) =? -1)%Z with false
    by (symmetry; apply Z.eqb_neq; lia).
  simpl. unfold slice.
  replace (String.length (seg +:+ String ";" rest))
    with (String.length seg + S (String.length rest))%nat
    by (clear; induction seg; simpl; congruence).
  replace ((0 <=? 0)%Z && (0 <=? Z.of_nat (String.length seg))%Z
           && (Z.of_nat (String.length seg)
               <=? Z.of_nat (String.length seg + S (String.length rest)))%Z)
    with true; [eauto|].
  symmetry. rewrite !andb_true_iff, !Z.leb_le. lia.
Qed.

(** A header that begins with the word Bearer and a space splits in two at
    that space. *)
Lemma HasPrefix_Bearer (h : string) :
  Strings.HasPrefix h "Bearer " = true ->
  exists auth : string, h = "Bearer " +:+ auth
                        /\ Strings.SplitN h " " 2 = ["Bearer"; auth].
Proof.
  unfold Strings.HasPrefix. intros H.
  do 7 (destruct h as [|? h]; [discriminate H|];
        simpl in H;
        match type of H with
        | (if ?d then _ else _) = _ => destruct d as [<-|]; [|discriminate H]
        end).
  exists h. split; [reflexivity|].
  assert (Hsplit : Strings.SplitN ("Bearer" +:+ String " " h) " " 2
                   = ["Bearer"; h]).
  { destruct (first_segment_unique " " "Bearer" h _ eq_refl) as (Hf & Ht & Hd).
    - simpl. intros Hocc.
      repeat (destruct Hocc as [Hocc|Hocc]; [discriminate Hocc|]). exact Hocc.
    - by rewrite SplitN_byte_2, Hf, Ht, Hd. }
  exact Hsplit.
Qed.

(** ** What each request-making step does *)

Section Steps.

Context (env : Env).

Lemma fetchManifests_unfold (method tag : string) (w : World) :
  fetchManifests env method tag w =
    match NewRequest env method
            ("https://" +:+ host (handle w) +:+ "/v2/" +:+ repo (handle w)
             +:+ "/manifests/" +:+ tag) with
    | inl err => (Done (inl err), w)
    | inr req0 =>
        let req := setAuthHeader (handle w)
                     (Request_Header_Set "Accept" manifest_Accept req0) in
        (Done (transport env (wire w) req),
         mkWorld (handle w) (wire w ++ [req]))
    end.
Proof.
  unfold fetchManifests. run.
  destruct (NewRequest env method _); reflexivity.
Qed.

Lemma getAvailability_fetch (tag : string) (w : World) :
  getAvailability env tag w = fetchManifests env "HEAD" tag w.
Proof.
  unfold getAvailability. run.
  rewrite fetchManifests_unfold.
  destruct (NewRequest env "HEAD" _) as [err|req0]; [reflexivity|].
  cbn zeta. destruct (transport env _ _); reflexivity.
Qed.

Lemma NewRequest_Method (method u : string) (req : Request) :
  NewRequest env method u = inr req ->
  Method req = method /\ URL req = u /\ ReqHeader req = ∅.
Proof.
  unfold NewRequest. destruct (newRequestError env method u); [discriminate|].
  intros [= <-]. done.
Qed.

Lemma setAuthHeader_Method (c : Repository) (req : Request) :
  Method (setAuthHeader c req) = Method req.
Proof.
  unfold setAuthHeader.
  destruct ((user c =? "AWS") && negb (password c =? ""))%string; [reflexivity|].
  destruct (negb (token c =? ""))%string; reflexivity.
Qed.

Lemma setAuthHeader_other_key (c : Repository) (req : Request) (key : string) :
  key <> "Authorization" ->
  ReqHeader (setAuthHeader c req) !! key = ReqHeader req !! key.
Proof.
  intros Hne. unfold setAuthHeader.
  destruct ((user c =? "AWS") && negb (password c =? ""))%string;
    [by apply lookup_insert_ne|].
  destruct (negb (token c =? ""))%string; [by apply lookup_insert_ne | reflexivity].
Qed.

(** A manifest request: one request at most, with the method asked for and
    the Accept value of the code; the handle is left as it was and nothing
    panics. *)
Lemma fetchManifests_step (method tag : string) (w : World) :
  exists (r : error + Response) (w' : World),
    fetchManifests env method tag w = (Done r, w')
    /\ handle w' = handle w
    /\ (sent w w' []
        \/ exists req, sent w w' [req] /\ Method req = method
                       /\ Header.Get (ReqHeader req) "Accept" = manifest_Accept
                       /\ r = transport env (wire w) req).
Proof.
  rewrite fetchManifests_unfold.
  destruct (NewRequest env method _) as [err|req0] eqn:E.
  - eexists _, _. split; [reflexivity|]. split; [reflexivity|].
    left. unfold sent. by rewrite app_nil_r.
  - apply NewRequest_Method in E as (Hm & _ & _).
    eexists _, _. split; [reflexivity|]. split; [reflexivity|].
    right. eexists. split; [reflexivity|].
    split; [by rewrite setAuthHeader_Method|].
    split; [|reflexivity].
    unfold Header.Get. rewrite setAuthHeader_other_key by discriminate.
    cbn. unfold Header.Set_. by rewrite lookup_insert_eq.
Qed.

(** [login]: one GET at most; nothing panics. *)
Lemma login_step (endpoint service scope : string) (w : World) :
  exists (e : option error) (w' : World),
    login env endpoint service scope w = (Done e, w')
    /\ (sent w w' [] \/ exists req, sent w w' [req] /\ Method req = "GET").
Proof.
  unfold login.
  destruct (url_Parse env endpoint) as [err|u].
  { eexists _, _. split; [reflexivity|]. left. unfold sent. by rewrite app_nil_r. }
  destruct (NewRequest env "GET" _) as [err|req0] eqn:E.
  { eexists _, _. split; [reflexivity|]. left. unfold sent. by rewrite app_nil_r. }
  apply NewRequest_Method in E as (Hm & _ & _).
  run.
  set (req := if (negb (user (handle w) =? "")
                  && negb (password (handle w) =? ""))%string
              then SetBasicAuth env (user (handle w)) (password (handle w)) req0
              else req0).
  assert (Hreq : Method req = "GET").
  { subst req. destruct (negb _ && negb _); exact Hm. }
  assert (Hsent : forall c, sent w (mkWorld c (wire w ++ [req])) [] \/
            exists r, sent w (mkWorld c (wire w ++ [req])) [r] /\ Method r = "GET").
  { intros c. right. exists req. split; [reflexivity | exact Hreq]. }
  destruct (transport env (wire w) req) as [err|resp].
  { eexists _, _. split; [reflexivity|]. apply Hsent. }
  destruct (negb (StatusCode resp =? 200)%Z).
  { eexists _, _. split; [reflexivity|]. apply Hsent. }
  destruct (decode_Token env (Body resp)) as [err|tok].
  { eexists _, _. split; [reflexivity|]. apply Hsent. }
  destruct (tok =? "")%string.
  { eexists _, _. split; [reflexivity|]. apply Hsent. }
  eexists _, _. split; [reflexivity|]. apply Hsent.
Qed.

Lemma answer_challenge_step (resp : Response) (w : World) :
  exists (e : option error) (w' : World),
    answer_challenge env resp w = (Done e, w')
    /\ (sent w w' [] \/ exists req, sent w w' [req] /\ Method req = "GET").
Proof.
  unfold answer_challenge.
  destruct (Strings.HasPrefix _ "Bearer ") eqn:Eb.
  - apply HasPrefix_Bearer in Eb as (auth & _ & ->).
    destruct (parseAuthHeader_total auth) as (endpoint & service & scope & Hp).
    run. cbn [index lookup list_lookup]. rewrite Hp.
    apply login_step.
  - eexists _, _. split; [reflexivity|]. left. unfold sent. by rewrite app_nil_r.
Qed.

(** One turn of the loop of [HasImage]. *)
Lemma HasImage_for_unfold (tries : nat) (tag : string) (w : World) :
  HasImage_for env (S tries) tag w =
    match getAvailability env tag w with
    | (Done (inl err), w1) => (Done (false, Some err), w1)
    | (Done (inr resp), w1) =>
        if (StatusCode resp =? 401)%Z then
          match answer_challenge env resp w1 with
          | (Done (Some err), w2) => (Done (false, Some err), w2)
          | (Done None, w2) => HasImage_for env tries tag w2
          | (Panic msg, w2) => (Panic msg, w2)
          end
        else if (StatusCode resp =? 200)%Z then (Done (true, None), w1)
        else (Done (false, Some (errors_New (Status resp))), w1)
    | (Panic msg, w1) => (Panic msg, w1)
    end.
Proof.
  cbn [HasImage_for]. run.
  destruct (getAvailability env tag w) as [[[err|resp]|msg] w1]; try reflexivity.
  destruct (StatusCode resp =? 401)%Z;
    [|by destruct (StatusCode resp =? 200)%Z].
  unfold answer_challenge.
  destruct (Strings.HasPrefix _ "Bearer "); [|reflexivity].
  run.
  destruct (index _ 1) as [auth|msg]; [|reflexivity].
  destruct (parseAuthHeader auth) as [[[endpoint service] scope]|msg];
    [|reflexivity].
  destruct (login env endpoint service scope w1) as [[[err|]|msg] w2];
    reflexivity.
Qed.

End Steps.

(** ** The existence check *)

Section HasImageFacts.

Context (env : Env).

Lemma getAvailability_step (tag : string) (w : World) :
  exists (r : error + Response) (w' : World),
    getAvailability env tag w = (Done r, w')
    /\ handle w' = handle w
    /\ (sent w w' []
        \/ exists req, sent w w' [req] /\ Method req = "HEAD"
                       /\ Header.Get (ReqHeader req) "Accept" = manifest_Accept
                       /\ r = transport env (wire w) req).
Proof. rewrite getAvailability_fetch. apply fetchManifests_step. Qed.

(** No run of the loop ends with (false, nil). *)
Lemma HasImage_for_never_false_nil (tag : string) (tries : nat) :
  forall w w', HasImage_for env tries tag w <> (Done (false, None), w').
Proof.
  induction tries as [|tries IH]; intros w w'; [discriminate|].
  rewrite HasImage_for_unfold.
  destruct (getAvailability env tag w) as [[[err|resp]|msg] w1];
    try discriminate.
  destruct (StatusCode resp =? 401)%Z.
  - destruct (answer_challenge env resp w1) as [[[err|]|msg] w2];
      try discriminate.
    apply IH.
  - destruct (StatusCode resp =? 200)%Z; discriminate.
Qed.


End HasImageFacts.

(** C3 (amended).  If a probe of [HasImage] returns a status other than
    200 and 401, the call ends there and reports that status as an error.
    If a probe returns 401 and its Www-Authenticate header does not begin
    with the word Bearer and a space, the call performs no login and goes on
    with the tries it has left: it probes once more after the first probe,
    and reports the error aborted after the second.  In no case does the
    call return (false, nil). *)
Theorem HasImage_probe_status (env : Env) (tag : string) (tries : nat)
    (w w1 : World) (resp : Response) :
  getAvailability env tag w = (Done (inr resp), w1) ->
  (StatusCode resp <> 200%Z -> StatusCode resp <> 401%Z ->
   HasImage_for env (S tries) tag w
   = (Done (false, Some (errors_New (Status resp))), w1))
  /\ (StatusCode resp = 401%Z ->
      Strings.HasPrefix (Header.Get (RespHeader resp) "Www-Authenticate")
                        "Bearer " = false ->
      HasImage_for env (S tries) tag w = HasImage_for env tries tag w1
      /\ HasImage_for env 0 tag w1
         = (Done (false, Some (errors_New "aborted")), w1))
  /\ (forall w', HasImage env tag w <> (Done (false, None), w')).
Proof.
  intros Hprobe. split; [|split].
  - intros H200 H401. rewrite HasImage_for_unfold, Hprobe.
    apply Z.eqb_neq in H200, H401. by rewrite H200, H401.
  - intros H401 Hpre. split; [|reflexivity].
    rewrite HasImage_for_unfold, Hprobe.
    apply Z.eqb_eq in H401. rewrite H401.
    unfold answer_challenge. rewrite Hpre. reflexivity.
  - apply HasImage_for_never_false_nil.
Qed.

Lemma HasImage_probe_status_witness :
  HasImage Scenario.missing "latest" Scenario.start
  = (Done (false, Some (errors_New "404 Not Found")),
     snd (getAvailability Scenario.missing "latest" Scenario.start)).
Proof.
  refine (proj1 (HasImage_probe_status Scenario.missing "latest" 1
                   Scenario.start _ Scenario.not_found _) _ _).
  - vm_compute. reflexivity.
  - vm_compute. discriminate.
  - vm_compute. discriminate.
Defined.

(** C3 as stated fails: a 401 without a Bearer challenge does not end the
    call.  Here the registry answers the retried probe with 200 and the call
    returns (true, nil) after two probes, where the claim has it report the
    status 401 Unauthorized as an error after the first. *)
Lemma HasImage_plain_401_is_retried :
  exists resp w1,
    getAvailability Scenario.basic_then_ok "latest" Scenario.start
    = (Done (inr resp), w1)
    /\ StatusCode resp = 401%Z
    /\ Strings.HasPrefix (Header.Get (RespHeader resp) "Www-Authenticate")
                         "Bearer " = false
    /\ fst (HasImage Scenario.basic_then_ok "latest" Scenario.start)
       = Done (true, None)
    /\ HasImage Scenario.basic_then_ok "latest" Scenario.start
       <> (Done (false, Some (errors_New (Status resp))), w1)
    /\ Method <$> wire (snd (HasImage Scenario.basic_then_ok "latest"
                               Scenario.start))
       = ["HEAD"; "HEAD"].
Proof.
  eexists _, _. split; [vm_compute; reflexivity|].
  split; [reflexivity|]. split; [vm_compute; reflexivity|].
  split; [vm_compute; reflexivity|].
  split; [vm_compute; discriminate | vm_compute; reflexivity].
Qed.

(** C2 (amended).  [HasImage] returns (true, nil) exactly when a probe
    returns 200 on the first try, or on the second try after a first 401
    whose challenge was answered without error (by a login when it is a
    Bearer challenge, by nothing otherwise).  It never returns (false, nil).
    A second consecutive 401 does not surface as a status error: the call
    answers that challenge too and reports the error of that login if it
    fails, and the error aborted otherwise. *)
Theorem HasImage_true_iff (env : Env) (tag : string) (w : World) :
  (forall w',
     HasImage env tag w = (Done (true, None), w') <->
     exists resp w1,
       getAvailability env tag w = (Done (inr resp), w1)
       /\ ((StatusCode resp = 200%Z /\ w' = w1)
           \/ (StatusCode resp = 401%Z
               /\ exists w2 resp2,
                   answer_challenge env resp w1 = (Done None, w2)
                   /\ getAvailability env tag w2 = (Done (inr resp2), w')
                   /\ StatusCode resp2 = 200%Z)))
  /\ (forall w', HasImage env tag w <> (Done (false, None), w'))
  /\ (forall resp w1 w2 resp2 w3,
        getAvailability env tag w = (Done (inr resp), w1) ->
        StatusCode resp = 401%Z ->
        answer_challenge env resp w1 = (Done None, w2) ->
        getAvailability env tag w2 = (Done (inr resp2), w3) ->
        StatusCode resp2 = 401%Z ->
        exists e w4,
          HasImage env tag w = (Done (false, Some e), w4)
          /\ (answer_challenge env resp2 w3 = (Done (Some e), w4)
              \/ (answer_challenge env resp2 w3 = (Done None, w4)
                  /\ e = errors_New "aborted"))).
Proof.
  split; [|split].
  - intros w'. unfold HasImage. split.
    + rewrite HasImage_for_unfold.
      destruct (getAvailability env tag w) as [[[err|resp]|msg] w1];
        try discriminate.
      destruct (StatusCode resp =? 401)%Z eqn:E401.
      * destruct (answer_challenge env resp w1) as [[[err|]|msg] w2] eqn:Ea;
          try discriminate.
        rewrite HasImage_for_unfold.
        destruct (getAvailability env tag w2) as [[[err|resp2]|msg] w3] eqn:Ep2;
          try discriminate.
        destruct (StatusCode resp2 =? 401)%Z eqn:E401'.
        { destruct (answer_challenge env resp2 w3) as [[[err|]|msg] w4];
            cbn; discriminate. }
        destruct (StatusCode resp2 =? 200)%Z eqn:E200'; [|discriminate].
        intros [= <-]. exists resp, w1. split; [reflexivity|]. right.
        split; [by apply Z.eqb_eq|]. exists w2, resp2.
        split_and!; [exact Ea | exact Ep2 | by apply Z.eqb_eq].
      * destruct (StatusCode resp =? 200)%Z eqn:E200; [|discriminate].
        intros [= <-]. exists resp, w1. split; [reflexivity|]. left.
        split; [by apply Z.eqb_eq | reflexivity].
    + intros (resp & w1 & Hp
              & [[H200 ->]|(H401 & w2 & resp2 & Ha & Hp2 & H200)]).
      * rewrite HasImage_for_unfold, Hp, H200. reflexivity.
      * rewrite HasImage_for_unfold, Hp, H401, Z.eqb_refl, Ha.
        rewrite HasImage_for_unfold, Hp2, H200. reflexivity.
  - apply HasImage_for_never_false_nil.
  - intros resp w1 w2 resp2 w3 Hp1 H401 Ha1 Hp2 H401'.
    unfold HasImage. rewrite HasImage_for_unfold, Hp1.
    apply Z.eqb_eq in H401, H401'. rewrite H401, Ha1.
    rewrite HasImage_for_unfold, Hp2, H401'.
    destruct (answer_challenge_step env resp2 w3) as ([err|] & w4 & -> & _).
    + exists err, w4. split; [reflexivity | by left].
    + exists (errors_New "aborted"), w4. split; [reflexivity | by right].
Qed.

Lemma HasImage_true_iff_witness :
  HasImage Scenario.bearer_then_ok "latest" Scenario.start
  = (Done (true, None),
     snd (HasImage Scenario.bearer_then_ok "latest" Scenario.start)).
Proof.
  apply (proj1 (HasImage_true_iff Scenario.bearer_then_ok "latest"
                  Scenario.start)).
  eexists _, _. split; [vm_compute; reflexivity|].
  right. split; [reflexivity|].
  eexists _, _. split; [vm_compute; reflexivity|].
  split; [vm_compute; reflexivity | reflexivity].
Defined.

(** C2 as stated fails in its second half.  The registry challenges every
    probe; the login after the first 401 succeeds and stores the token; the
    second probe is answered 401 again; the call then logs in once more and
    reports the error aborted, not the status 401 Unauthorized. *)
Lemma HasImage_second_401_is_aborted :
  exists resp w1 w2 resp2 w3,
    getAvailability Scenario.always_challenging "latest" Scenario.start
    = (Done (inr resp), w1)
    /\ StatusCode resp = 401%Z
    /\ Strings.HasPrefix (Header.Get (RespHeader resp) "Www-Authenticate")
                         "Bearer " = true
    /\ answer_challenge Scenario.always_challenging resp w1 = (Done None, w2)
    /\ token (handle w2) = "t0ken"
    /\ getAvailability Scenario.always_challenging "latest" w2
       = (Done (inr resp2), w3)
    /\ StatusCode resp2 = 401%Z
    /\ fst (HasImage Scenario.always_challenging "latest" Scenario.start)
       = Done (false, Some (errors_New "aborted"))
    /\ fst (HasImage Scenario.always_challenging "latest" Scenario.start)
       <> Done (false, Some (errors_New (Status resp2))).
Proof.
  eexists _, _, _, _, _.
  split; [vm_compute; reflexivity|]. split; [reflexivity|].
  split; [vm_compute; reflexivity|]. split; [vm_compute; reflexivity|].
  split; [reflexivity|]. split; [vm_compute; reflexivity|].
  split; [reflexivity|]. split; [vm_compute; reflexivity|].
  vm_compute. discriminate.
Qed.



(** ** The platform check *)

Section PlatformFacts.

Context (env : Env).

Lemma getManifests_unfold (tag : string) (w : World) :
  getManifests env tag w =
    match fetchManifests env "GET" tag w with
    | (Done (inl err), w1) => (Done (inl err), w1)
    | (Done (inr resp), w1) =>
        if negb (StatusCode resp =? 200)%Z then
          (Done (inl (errors_New (Status resp))), w1)
        else
          match parseContentType
                  (Header.Get (RespHeader resp) "Content-Type") with
          | Done mediaType => (Done (inr (mediaType, Body resp)), w1)
          | Panic msg => (Panic msg, w1)
          end
    | (Panic msg, w1) => (Panic msg, w1)
    end.
Proof.
  unfold getManifests. run.
  destruct (fetchManifests env "GET" tag w) as [[[err|resp]|msg] w1];
    try reflexivity.
  destruct (negb (StatusCode resp =? 200)%Z); [reflexivity|].
  destruct (parseContentType _); reflexivity.
Qed.

(** A manifest response with status 200 and a content type hands its
    media type and body to the dispatch. *)
Lemma getManifests_ok (tag mediaType : string) (w w1 : World) (resp : Response) :
  fetchManifests env "GET" tag w = (Done (inr resp), w1) ->
  StatusCode resp = 200%Z ->
  parseContentType (Header.Get (RespHeader resp) "Content-Type")
  = Done mediaType ->
  getManifests env tag w = (Done (inr (mediaType, Body resp)), w1).
Proof.
  intros Hf H200 Hct. rewrite getManifests_unfold, Hf, H200, Hct. reflexivity.
Qed.

Lemma getImageConfig_unfold (digest : string) (w : World) :
  getImageConfig env digest w =
    match NewRequest env "GET"
            ("https://" +:+ host (handle w) +:+ "/v2/" +:+ repo (handle w)
             +:+ "/blobs/" +:+ digest) with
    | inl _ => (Panic "nil pointer dereference", w)
    | inr req0 =>
        let req := setAuthHeader (handle w)
                     (Request_Header_Set "Accept"
                        (Strings.Join
                           ["application/vnd.docker.container.image.v1+json";
                            ocispec.MediaTypeImageConfig] ", ") req0) in
        (Done match transport env (wire w) req with
              | inl err => inl err
              | inr resp =>
                  if negb (StatusCode resp =? 200)%Z
                  then inl (errors_New (Status resp))
                  else inr (Body resp)
              end,
         mkWorld (handle w) (wire w ++ [req]))
    end.
Proof.
  unfold getImageConfig. run.
  destruct (NewRequest env "GET" _) as [err|req0]; [reflexivity|].
  run. destruct (transport env _ _) as [err|resp]; [reflexivity|].
  destruct (negb (StatusCode resp =? 200)%Z); reflexivity.
Qed.

(** The loop over the descriptors stops with success at a descriptor
    without a platform, if not before. *)
Lemma range_Manifests_no_platform (arch os : string)
    (pre post : list Descriptor.t) (desc : Descriptor.t) :
  Descriptor.Platform desc = None ->
  range_Manifests arch os (pre ++ desc :: post) = true.
Proof.
  intros Hnone. induction pre as [|d pre IH]; cbn.
  - by rewrite Hnone.
  - destruct (Descriptor.Platform d) as [p|]; [|reflexivity].
    destruct (match_ arch (Platform.Architecture p)
              && match_ os (Platform.OS p)); [reflexivity | exact IH].
Qed.

End PlatformFacts.

(** C5.  When the manifest response is an OCI image index or a Docker
    manifest list, and its list of descriptors holds a descriptor without a
    platform, [HasPlatformImage] returns nil for every requested arch and os
    without any further request: the loop goes through the descriptors in
    list order and returns at that descriptor if it has not returned
    before, whatever comes after it. *)
Theorem HasPlatformImage_index_no_platform (env : Env) (tag arch os : string)
    (w w1 : World) (resp : Response) (mediaType : string)
    (manifestList : Index.t) (pre post : list Descriptor.t)
    (desc : Descriptor.t) :
  fetchManifests env "GET" tag w = (Done (inr resp), w1) ->
  StatusCode resp = 200%Z ->
  parseContentType (Header.Get (RespHeader resp) "Content-Type")
  = Done mediaType ->
  mediaType = ocispec.MediaTypeImageIndex
  \/ mediaType = mediaTypeDockerSchema2ManifestList ->
  decode_Index env (Body resp) = inr manifestList ->
  Index.Manifests manifestList = pre ++ desc :: post ->
  Descriptor.Platform desc = None ->
  HasPlatformImage env tag arch os w = (Done None, w1)
  /\ range_Manifests arch os (pre ++ desc :: post)
     = range_Manifests arch os (pre ++ [desc]).
Proof.
  intros Hf H200 Hct Hmt Hdec Hlist Hnone. split.
  - unfold HasPlatformImage. run.
    rewrite (getManifests_ok env tag mediaType w w1 resp Hf H200 Hct).
    assert (Hsw : ((mediaType =? ocispec.MediaTypeImageIndex)
                   || (mediaType =? mediaTypeDockerSchema2ManifestList))%string
                  = true).
    { destruct Hmt as [-> | ->]; reflexivity. }
    rewrite Hsw, Hdec, Hlist.
    by rewrite range_Manifests_no_platform.
  - by rewrite !range_Manifests_no_platform.
Qed.

Lemma HasPlatformImage_index_no_platform_witness :
  HasPlatformImage Scenario.image_index "latest" "s390x" "plan9" Scenario.start
  = (Done None,
     snd (fetchManifests Scenario.image_index "GET" "latest" Scenario.start)).
Proof.
  refine (proj1 (HasPlatformImage_index_no_platform Scenario.image_index
                   "latest" "s390x" "plan9" Scenario.start _
                   (Scenario.ok ocispec.MediaTypeImageIndex "index")
                   ocispec.MediaTypeImageIndex Scenario.index_doc
                   [Descriptor.mk mediaTypeDockerSchema2Manifest "sha256:01"
                      (Some Scenario.amd64_linux)]
                   [Descriptor.mk mediaTypeDockerSchema2Manifest "sha256:03"
                      (Some Scenario.arm64_linux)]
                   (Descriptor.mk mediaTypeDockerSchema2Manifest "sha256:02"
                      None)
                   _ _ _ _ _ _ _)).
  - vm_compute. reflexivity.
  - reflexivity.
  - vm_compute. reflexivity.
  - left. reflexivity.
  - reflexivity.
  - reflexivity.
  - reflexivity.
Defined.

(** C6.  When the media type of the manifest response is one of the two
    schema 1 types (the signed one or the plain JSON one),
    [HasPlatformImage] returns the sentinel [ErrDeprecatedManifest] for
    every requested arch and os: neither nil nor the no image error. *)
Theorem HasPlatformImage_schema1_deprecated (env : Env) (tag arch os : string)
    (w w1 : World) (resp : Response) (mediaType : string) :
  fetchManifests env "GET" tag w = (Done (inr resp), w1) ->
  StatusCode resp = 200%Z ->
  parseContentType (Header.Get (RespHeader resp) "Content-Type")
  = Done mediaType ->
  mediaType = "application/vnd.docker.distribution.manifest.v1+prettyjws"
  \/ mediaType = "application/vnd.docker.distribution.manifest.v1+json" ->
  HasPlatformImage env tag arch os w = (Done (Some ErrDeprecatedManifest), w1)
  /\ Some ErrDeprecatedManifest <> None
  /\ Some ErrDeprecatedManifest
     <> Some (fmt_Errorf ("no image for " +:+ arch +:+ "/" +:+ os)).
Proof.
  intros Hf H200 Hct Hmt. split; [|split; discriminate].
  unfold HasPlatformImage. run.
  rewrite (getManifests_ok env tag mediaType w w1 resp Hf H200 Hct).
  destruct Hmt as [-> | ->]; reflexivity.
Qed.

Lemma HasPlatformImage_schema1_deprecated_witness :
  HasPlatformImage Scenario.schema1 "latest" "arm64" "linux" Scenario.start
  = (Done (Some ErrDeprecatedManifest),
     snd (fetchManifests Scenario.schema1 "GET" "latest" Scenario.start)).
Proof.
  refine (proj1 (HasPlatformImage_schema1_deprecated Scenario.schema1
                   "latest" "arm64" "linux" Scenario.start _
                   (Scenario.ok "application/vnd.docker.distribution.manifest.v1+prettyjws; charset=utf-8" "")
                   "application/vnd.docker.distribution.manifest.v1+prettyjws"
                   _ _ _ _)).
  - vm_compute. reflexivity.
  - reflexivity.
  - vm_compute. reflexivity.
  - left. reflexivity.
Defined.

(** C1.  The code does not compare like for like on a single manifest.
    The manifest is annotated arm64/linux and its config blob cannot be
    fetched.  Asked for arm64/linux, the call compares arm64 with linux,
    falls back to the config blob and returns the error of that fetch;
    asked for the swapped pair, architecture linux and os arm64, it returns
    nil. *)
Theorem HasPlatformImage_single_manifest_swapped :
  Descriptor.Platform (Manifest.Config Scenario.manifest_doc)
  = Some (Platform.mk "arm64" "linux")
  /\ fst (HasPlatformImage Scenario.single_manifest "latest" "arm64" "linux"
            Scenario.start)
     = Done (Some (errors_New "404 Not Found"))
  /\ fst (HasPlatformImage Scenario.single_manifest "latest" "linux" "arm64"
            Scenario.start)
     = Done None.
Proof. split_and!; vm_compute; reflexivity. Qed.

(** ** Request headers *)

(** C8 (amended).  Every manifest request, the HEAD probe and the GET
    fetch alike, carries an Accept header that lists, in this order: the
    Docker manifest list, the OCI image index, the Docker schema 2 manifest
    and the OCI image manifest media types. *)
Theorem manifest_requests_Accept (env : Env) (tag : string) (w : World) :
  (exists r w',
     getAvailability env tag w = (Done r, w')
     /\ (sent w w' []
         \/ exists req, sent w w' [req] /\ Method req = "HEAD"
                        /\ Header.Get (ReqHeader req) "Accept" = manifest_Accept))
  /\ (exists r w',
        getManifests env tag w = (Done r, w')
        /\ (sent w w' []
            \/ exists req, sent w w' [req] /\ Method req = "GET"
                           /\ Header.Get (ReqHeader req) "Accept"
                              = manifest_Accept))
  /\ manifest_Accept
     = "application/vnd.docker.distribution.manifest.list.v2+json, "
       +:+ "application/vnd.oci.image.index.v1+json, "
       +:+ "application/vnd.docker.distribution.manifest.v2+json, "
       +:+ "application/vnd.oci.image.manifest.v1+json".
Proof.
  split; [|split; [|reflexivity]].
  - destruct (getAvailability_step env tag w) as (r & w' & Hr & _ & Hs).
    exists r, w'. split; [exact Hr|].
    destruct Hs as [Hs|(req & Hs & Hm & Ha & _)]; [by left|].
    right. exists req. done.
  - rewrite getManifests_unfold.
    destruct (fetchManifests_step env "GET" tag w) as (r & w' & -> & _ & Hs).
    assert (Hs' : sent w w' []
                  \/ exists req, sent w w' [req] /\ Method req = "GET"
                                 /\ Header.Get (ReqHeader req) "Accept"
                                    = manifest_Accept).
    { destruct Hs as [Hs|(req & Hs & Hm & Ha & _)]; [by left|].
      right. exists req. done. }
    destruct r as [err|resp]; [by eexists _, _|].
    destruct (negb (StatusCode resp =? 200)%Z); [by eexists _, _|].
    destruct (parseContentType_total
                (Header.Get (RespHeader resp) "Content-Type")) as [mt ->].
    by eexists _, _.
Qed.

(** C8 as stated fails: the Accept value of a probe is not in the order
    that puts the OCI image index first. *)
Lemma manifest_Accept_not_in_claimed_order :
  exists req,
    wire (snd (getAvailability Scenario.missing "latest" Scenario.start))
    = [req]
    /\ Header.Get (ReqHeader req) "Accept" = manifest_Accept
    /\ Header.Get (ReqHeader req) "Accept" <> spec_manifest_Accept.
Proof.
  eexists. split; [vm_compute; reflexivity|].
  split; [vm_compute; reflexivity | vm_compute; discriminate].
Qed.

(** ** The token exchange *)

(** C9.  When [login] has sent its request and the endpoint has answered:
    on a status other than 200 it fails with the error login failed
    followed by the status; on status 200 with a body whose Token decodes
    to the empty string (an empty or a missing field) it fails with an
    error of its own; in both cases the handle is left as it was.  On
    status 200 with a non-empty token it stores that token.  Whenever it
    returns nil the stored token is not empty, and whenever it returns an
    error the handle is left as it was. *)
Theorem login_outcomes (env : Env) (endpoint service scope : string)
    (w w' : World) (e : option error) :
  login env endpoint service scope w = (Done e, w') ->
  (forall req resp,
     sent w w' [req] -> transport env (wire w) req = inr resp ->
     (StatusCode resp <> 200%Z ->
      e = Some (errors_New ("login failed " +:+ Status resp))
      /\ handle w' = handle w)
     /\ (StatusCode resp = 200%Z ->
         decode_Token env (Body resp) = inr "" ->
         e = Some (errors_New "response does not contains token")
         /\ handle w' = handle w)
     /\ (StatusCode resp = 200%Z ->
         forall tok, decode_Token env (Body resp) = inr tok -> tok <> "" ->
         e = None /\ handle w' = set_token tok (handle w)))
  /\ (e = None -> token (handle w') <> "")
  /\ (e <> None -> handle w' = handle w).
Proof.
  unfold login.
  assert (Hnothing : forall (e0 : option error),
            (Done e0, w) = (Done e, w') ->
            e0 <> None ->
            (forall req resp,
               sent w w' [req] -> transport env (wire w) req = inr resp ->
               (StatusCode resp <> 200%Z ->
                e = Some (errors_New ("login failed " +:+ Status resp))
                /\ handle w' = handle w)
               /\ (StatusCode resp = 200%Z ->
                   decode_Token env (Body resp) = inr "" ->
                   e = Some (errors_New "response does not contains token")
                   /\ handle w' = handle w)
               /\ (StatusCode resp = 200%Z ->
                   forall tok, decode_Token env (Body resp) = inr tok ->
                               tok <> "" ->
                   e = None /\ handle w' = set_token tok (handle w)))
            /\ (e = None -> token (handle w') <> "")
            /\ (e <> None -> handle w' = handle w)).
  { intros e0 [= <- <-] He0. split; [|split; [done|done]].
    intros req resp Hs _. exfalso. unfold sent in Hs.
    apply (f_equal length) in Hs. rewrite length_app in Hs. cbn in Hs. lia. }
  destruct (url_Parse env endpoint) as [err|u];
    [intros H; by apply (Hnothing (Some err))|].
  destruct (NewRequest env "GET" _) as [err|req0];
    [intros H; by apply (Hnothing (Some err))|].
  clear Hnothing. run.
  set (req1 := if (negb (user (handle w) =? "")
                   && negb (password (handle w) =? ""))%string
               then SetBasicAuth env (user (handle w)) (password (handle w)) req0
               else req0).
  assert (Hreq : forall c req, sent w (mkWorld c (wire w ++ [req1])) [req] ->
                               req = req1).
  { intros c req Hs. unfold sent in Hs. cbn in Hs.
    apply app_inv_head in Hs. by injection Hs. }
  destruct (transport env (wire w) req1) as [err|resp1] eqn:Et.
  { intros [= <- <-]. split; [|split; [done|done]].
    intros req resp Hs Hr. apply Hreq in Hs. subst req. congruence. }
  destruct (StatusCode resp1 =? 200)%Z eqn:E200; cbn [negb].
  2:{ apply Z.eqb_neq in E200. intros [= <- <-].
      split; [|split; [done|done]].
      intros req resp Hs Hr. apply Hreq in Hs. subst req.
      rewrite Et in Hr. injection Hr as <-.
      split; [done|]. split; intros H200; congruence. }
  apply Z.eqb_eq in E200.
  destruct (decode_Token env (Body resp1)) as [err|tok1] eqn:Ed.
  { intros [= <- <-]. split; [|split; [done|done]].
    intros req resp Hs Hr. apply Hreq in Hs. subst req.
    rewrite Et in Hr. injection Hr as <-.
    split; [congruence|]. split; [congruence|].
    intros _ tok Htok. congruence. }
  destruct (tok1 =? "")%string eqn:Etok.
  { apply String.eqb_eq in Etok. subst tok1. intros [= <- <-].
    split; [|split; [done|done]].
    intros req resp Hs Hr. apply Hreq in Hs. subst req.
    rewrite Et in Hr. injection Hr as <-.
    split; [congruence|]. split; [done|].
    intros _ tok Htok Hne. congruence. }
  apply String.eqb_neq in Etok. intros [= <- <-]. cbn.
  split; [|split; [done|done]].
  intros req resp Hs Hr. apply Hreq in Hs. subst req.
  rewrite Et in Hr. injection Hr as <-.
  split; [congruence|]. split; [congruence|].
  intros _ tok Htok Hne. split; [reflexivity|]. congruence.
Qed.

Lemma login_outcomes_witness :
  Some (errors_New "login failed 403 Forbidden")
  = Some (errors_New ("login failed " +:+ Status Scenario.forbidden))
  /\ handle (snd (login Scenario.login_refused "https://auth.example.com/token"
                    "registry.example.com" "repository:team/app:pull"
                    Scenario.start))
     = handle Scenario.start.
Proof.
  assert (Hlogin :
    login Scenario.login_refused "https://auth.example.com/token"
      "registry.example.com" "repository:team/app:pull" Scenario.start
    = (Done (Some (errors_New "login failed 403 Forbidden")),
       snd (login Scenario.login_refused "https://auth.example.com/token"
              "registry.example.com" "repository:team/app:pull"
              Scenario.start))).
  { vm_compute. reflexivity. }
  destruct (login_outcomes _ _ _ _ _ _ _ Hlogin) as (Hresp & _ & _).
  destruct (Hresp
              (mkRequest "GET"
                 ("https://auth.example.com/token?service=registry.example.com"
                  +:+ "&scope=repository:team/app:pull") ∅)
              Scenario.forbidden) as (Hrefused & _).
  - vm_compute. reflexivity.
  - vm_compute. reflexivity.
  - apply Hrefused. vm_compute. discriminate.
Defined.

(** The other failure: a 200 answer whose token is empty. *)
Example login_empty_token :
  login Scenario.login_without_token "https://auth.example.com/token"
    "registry.example.com" "repository:team/app:pull" Scenario.start
  = (Done (Some (errors_New "response does not contains token")),
     mkWorld (handle Scenario.start)
       [mkRequest "GET"
          ("https://auth.example.com/token?service=registry.example.com"
           +:+ "&scope=repository:team/app:pull") ∅]).
Proof. vm_compute. reflexivity. Qed.

(** ** The authentication header *)

(** The request a registry call puts on the wire is the fresh request, with
    its Accept header, passed through [setAuthHeader]. *)
Lemma registry_request_shape (env : Env) (w w' : World) (req : Request) :
  (exists method tag r, fetchManifests env method tag w = (r, w'))
  \/ (exists digest r, getImageConfig env digest w = (r, w')) ->
  sent w w' [req] ->
  exists req0 : Request,
    ReqHeader req0 !! "Authorization" = None
    /\ req = setAuthHeader (handle w) req0.
Proof.
  assert (Hlast : forall c (r1 : Request),
            sent w (mkWorld c (wire w ++ [r1])) [req] -> req = r1).
  { intros c r1 Hs. unfold sent in Hs. cbn in Hs.
    apply app_inv_head in Hs. by injection Hs. }
  assert (Hnone : sent w w [req] -> False).
  { unfold sent. intros Hs. apply (f_equal length) in Hs.
    rewrite length_app in Hs. cbn in Hs. lia. }
  intros [(method & tag & r & Hf)|(digest & r & Hg)] Hs.
  - rewrite fetchManifests_unfold in Hf.
    destruct (NewRequest env method _) as [err|req0] eqn:E.
    + injection Hf as _ <-. by destruct Hnone.
    + apply NewRequest_Method in E as (_ & _ & Hh).
      cbn zeta in Hf. injection Hf as _ <-. apply Hlast in Hs.
      eexists. split; [|exact Hs].
      cbn. unfold Header.Set_. rewrite lookup_insert_ne by discriminate.
      by rewrite Hh.
  - rewrite getImageConfig_unfold in Hg.
    destruct (NewRequest env "GET" _) as [err|req0] eqn:E.
    + injection Hg as _ <-. by destruct Hnone.
    + apply NewRequest_Method in E as (_ & _ & Hh).
      cbn zeta in Hg. injection Hg as _ <-. apply Hlast in Hs.
      eexists. split; [|exact Hs].
      cbn. unfold Header.Set_. rewrite lookup_insert_ne by discriminate.
      by rewrite Hh.
Qed.

(** C10.  On every request to the registry (a manifest request or a
    config blob request) of a handle whose username is AWS: when the stored
    password is empty no Basic header is sent, and the Authorization header
    is the Bearer header of the cached token if there is one and absent
    otherwise; when the password is not empty the Authorization header is
    Basic followed by the password, whether or not a token is cached. *)
Theorem setAuthHeader_AWS (env : Env) (w w' : World) (req : Request) :
  user (handle w) = "AWS" ->
  (exists method tag r, fetchManifests env method tag w = (r, w'))
  \/ (exists digest r, getImageConfig env digest w = (r, w')) ->
  sent w w' [req] ->
  (password (handle w) = "" ->
   (token (handle w) = "" -> ReqHeader req !! "Authorization" = None)
   /\ (token (handle w) <> "" ->
       ReqHeader req !! "Authorization"
       = Some ["Bearer " +:+ token (handle w)]))
  /\ (password (handle w) <> "" ->
      ReqHeader req !! "Authorization"
      = Some ["Basic " +:+ password (handle w)]).
Proof.
  intros Huser Hcall Hs.
  destruct (registry_request_shape env w w' req Hcall Hs) as (req0 & H0 & ->).
  unfold setAuthHeader. rewrite Huser. cbn [String.eqb Ascii.eqb Bool.eqb andb].
  split.
  - intros ->. cbn [String.eqb negb]. split.
    + intros ->. exact H0.
    + intros Hne. apply String.eqb_neq in Hne. rewrite Hne. cbn.
      unfold Header.Set_. by rewrite lookup_insert_eq.
  - intros Hne. apply String.eqb_neq in Hne. rewrite Hne. cbn.
    unfold Header.Set_. by rewrite lookup_insert_eq.
Qed.

Lemma setAuthHeader_AWS_witness :
  ReqHeader
    (mkRequest "HEAD" "https://registry.example.com/v2/team/app/manifests/latest"
       {[ "Accept" := [manifest_Accept];
          "Authorization" := ["Basic cGFzcw=="] ]})
    !! "Authorization"
  = Some ["Basic cGFzcw=="].
Proof.
  refine (proj2 (setAuthHeader_AWS Scenario.missing
                   (mkWorld (mkRepository "registry.example.com" "team/app"
                               "AWS" "cGFzcw==" "t0ken") [])
                   (snd (fetchManifests Scenario.missing "HEAD" "latest"
                           (mkWorld (mkRepository "registry.example.com"
                                       "team/app" "AWS" "cGFzcw==" "t0ken")
                                    [])))
                   _ _ _ _) _).
  - reflexivity.
  - left. eexists "HEAD", "latest", _. apply surjective_pairing.
  - vm_compute. reflexivity.
  - vm_compute. discriminate.
Defined.

(** ** The media type of a content type *)

Lemma all_bytes_spec (p : ascii -> bool) (s : string) :
  all_bytes p s = true <-> forall a, occurs a s -> p a = true.
Proof.
  induction s as [|b s IH]; cbn.
  - split; [intros _ a [] | reflexivity].
  - rewrite andb_true_iff, IH. split.
    + intros [Hb Hs] a [->|Ha]; auto.
    + intros H. split; [apply H; by left | intros a Ha; apply H; by right].
Qed.

Lemma take_drop_str (n : nat) (s : string) :
  take_str n s +:+ drop_str n s = s.
Proof.
  revert s. induction n as [|n IH]; intros [|b s]; cbn; try reflexivity.
  change (String b (take_str n s +:+ drop_str n s) = String b s).
  f_equal. apply IH.
Qed.

(** X1.  [parseContentType] never panics.  It returns the content type
    up to its first semicolon, and the whole content type when it has none:
    the result holds no semicolon, and applying it again changes nothing. *)
Theorem parseContentType_media_type (contentType : string) :
  exists mediaType : string,
    parseContentType contentType = Done mediaType
    /\ ~ occurs ";" mediaType
    /\ (mediaType = contentType
        \/ exists params, contentType = mediaType +:+ ";" +:+ params)
    /\ (~ occurs ";" contentType -> mediaType = contentType)
    /\ parseContentType mediaType = Done mediaType.
Proof.
  assert (Hnone : forall s, ~ occurs ";" s -> parseContentType s = Done s).
  { intros s Hs. unfold parseContentType, Strings.IndexByte, Strings.Index.
    apply (find_byte_None ";") in Hs. by rewrite Hs. }
  unfold parseContentType, Strings.IndexByte, Strings.Index.
  pose proof (find_byte_spec ";" contentType) as H.
  destruct (Strings.find ";" contentType) as [n|] eqn:E.
  - destruct H as (seg & rest & Hct & Hno & Hn & Ht & _).
    replace (negb (Z.of_nat n =? -1)%Z) with true
      by (symmetry; apply negb_true_iff, Z.eqb_neq; lia).
    unfold slice.
    assert (Hlen : (n <= String.length contentType)%nat).
    { rewrite Hct, Hn. clear. induction seg; simpl; lia. }
    replace ((0 <=? 0)%Z && (0 <=? Z.of_nat n)%Z
             && (Z.of_nat n <=? Z.of_nat (String.length contentType))%Z)
      with true
      by (symmetry; rewrite !andb_true_iff, !Z.leb_le; lia).
    exists seg. cbn [drop_str Z.to_nat]. rewrite Nat2Z.id, Nat.sub_0_r.
    replace (Z.to_nat 0) with 0%nat by reflexivity. cbn [drop_str].
    rewrite Ht. split; [reflexivity|]. split; [exact Hno|].
    split; [right; by exists rest|]. split; [|by apply Hnone].
    intros Habs. exfalso. apply Habs. rewrite Hct. apply occurs_middle.
  - exists contentType. cbn. split; [reflexivity|]. split; [exact H|].
    split; [by left|]. split; [reflexivity | by apply Hnone].
Qed.

(** ** The challenge parser on any text *)

Lemma occurs_take_str (a : ascii) (n : nat) (s : string) :
  occurs a (take_str n s) -> occurs a s.
Proof.
  revert s. induction n as [|n IH]; intros [|b s]; cbn; try tauto.
  intros [->|H]; [by left | right; by apply IH].
Qed.

Lemma FindAllString_from_no_equals (s : string) (skip : nat) :
  ~ occurs "=" s -> Regexp.FindAllString_from skip s = [].
Proof.
  revert skip. induction s as [|b s IH]; intros skip Hno; [reflexivity|].
  assert (Hs : ~ occurs "=" s) by (intros H; apply Hno; by right).
  cbn [Regexp.FindAllString_from]. destruct skip as [|k]; [|by apply IH].
  destruct (Regexp.match_here (String b s)) as [len|] eqn:E; [|by apply IH].
  exfalso. apply Hno.
  destruct (match_here_shape _ _ E) as (k & v & Ht & _).
  apply (occurs_take_str _ len). rewrite Ht. apply occurs_middle.
Qed.

(** X2.  [parseAuthHeader] never panics: on every text, each index into
    the pieces of a part and the slice that strips the quotes of its value
    are in range.  On a text without an equals sign, the empty text
    included, it finds no part and returns three empty strings. *)
Theorem parseAuthHeader_never_panics (bearer : string) :
  (exists endpoint service scope : string,
     parseAuthHeader bearer = Done (endpoint, service, scope))
  /\ (~ occurs "=" bearer -> parseAuthHeader bearer = Done ("", "", "")).
Proof.
  split; [apply parseAuthHeader_total|].
  intros Hno. unfold parseAuthHeader, Regexp.FindAllString.
  by rewrite FindAllString_from_no_equals.
Qed.

(** ** Parsing a challenge that was written part by part *)

Lemma append_assoc_str (s1 s2 s3 : string) :
  (s1 +:+ s2) +:+ s3 = s1 +:+ (s2 +:+ s3).
Proof.
  induction s1 as [|a s1 IH]; [reflexivity|].
  change (String a ((s1 +:+ s2) +:+ s3) = String a (s1 +:+ (s2 +:+ s3))).
  by rewrite IH.
Qed.

Lemma length_append_str (s1 s2 : string) :
  String.length (s1 +:+ s2) = (String.length s1 + String.length s2)%nat.
Proof. induction s1 as [|a s1 IH]; simpl; [reflexivity | by rewrite IH]. Qed.

Lemma take_str_append (s1 s2 : string) :
  take_str (String.length s1) (s1 +:+ s2) = s1.
Proof.
  induction s1 as [|a s1 IH]; simpl; [by destruct s2 | by rewrite IH].
Qed.

Lemma drop_str_append (s1 s2 : string) :
  drop_str (String.length s1) (s1 +:+ s2) = s2.
Proof. induction s1 as [|a s1 IH]; simpl; [by destruct s2 | exact IH]. Qed.

(** A run of a class ends where the class ends. *)
Lemma span_append (p : ascii -> bool) (s1 : string) (b : ascii) (s2 : string) :
  all_bytes p s1 = true -> p b = false ->
  Regexp.span p (s1 +:+ String b s2) = String.length s1.
Proof.
  intros Hall Hb. induction s1 as [|a s1 IH]; simpl.
  - by rewrite Hb.
  - simpl in Hall. apply andb_true_iff in Hall as [Ha Hall].
    by rewrite Ha, IH.
Qed.

Lemma in_quotes_append (value rest : string) :
  in_quotes value +:+ rest
  = String Regexp.dquote (value +:+ String Regexp.dquote rest).
Proof.
  unfold in_quotes.
  change (String Regexp.dquote ((value +:+ String Regexp.dquote "") +:+ rest)
          = String Regexp.dquote (value +:+ String Regexp.dquote rest)).
  by rewrite append_assoc_str.
Qed.

Lemma match_here_part (key value rest : string) :
  key <> "" ->
  all_bytes Regexp.is_word key = true ->
  all_bytes Regexp.not_quote value = true ->
  Regexp.match_here (key +:+ "=" +:+ in_quotes value +:+ rest)
  = Some (String.length (key +:+ "=" +:+ in_quotes value)).
Proof.
  intros Hne Hkey Hval. unfold Regexp.match_here.
  rewrite in_quotes_append.
  change (key +:+ "=" +:+ String Regexp.dquote (value +:+ String Regexp.dquote rest))
    with (key +:+ String "=" (String Regexp.dquote
                                (value +:+ String Regexp.dquote rest))).
  rewrite span_append by done.
  destruct key as [|a key]; [done|]. cbn [String.length Nat.eqb].
  change (S (String.length key)) with (String.length (String a key)).
  rewrite drop_str_append. cbn [Ascii.eqb Bool.eqb andb].
  rewrite Ascii.eqb_refl. cbn [andb].
  rewrite span_append; [|done|unfold Regexp.not_quote; by rewrite Ascii.eqb_refl].
  rewrite drop_str_append, Ascii.eqb_refl. f_equal.
  unfold in_quotes. rewrite !length_append_str. simpl.
  rewrite length_append_str. simpl. lia.
Qed.

Lemma FindAllString_from_skip (s1 s2 : string) :
  Regexp.FindAllString_from (String.length s1) (s1 +:+ s2)
  = Regexp.FindAllString_from 0 s2.
Proof. induction s1 as [|a s1 IH]; simpl; [by destruct s2 | exact IH]. Qed.

Lemma FindAllString_from_gap (gap s : string) :
  all_bytes (fun a => negb (Regexp.is_word a)) gap = true ->
  Regexp.FindAllString_from 0 (gap +:+ s) = Regexp.FindAllString_from 0 s.
Proof.
  intros Hgap. induction gap as [|g gap IH]; [reflexivity|].
  simpl in Hgap. apply andb_true_iff in Hgap as [Hg Hgap].
  apply negb_true_iff in Hg.
  change (String g gap +:+ s) with (String g (gap +:+ s)).
  cbn [Regexp.FindAllString_from].
  unfold Regexp.match_here at 1. cbn [Regexp.span]. rewrite Hg.
  cbn [Nat.eqb]. by apply IH.
Qed.

Lemma append_nil_r_str (s : string) : s +:+ "" = s.
Proof.
  induction s as [|a s IH]; [reflexivity|].
  change (String a (s +:+ "") = String a s). by rewrite IH.
Qed.

Lemma FindAllString_from_match (part rest : string) :
  part <> "" ->
  Regexp.match_here (part +:+ rest) = Some (String.length part) ->
  Regexp.FindAllString_from 0 (part +:+ rest)
  = part :: Regexp.FindAllString_from 0 rest.
Proof.
  intros Hne Hm. destruct part as [|a part]; [done|].
  change (String a part +:+ rest) with (String a (part +:+ rest)) in *.
  cbn [Regexp.FindAllString_from]. rewrite Hm. f_equal.
  - change (String a (part +:+ rest)) with (String a part +:+ rest).
    apply take_str_append.
  - cbn [String.length]. rewrite Nat.sub_1_r. cbn [Nat.pred].
    apply FindAllString_from_skip.
Qed.

Lemma well_formed_part_spec (gap key value : string) :
  well_formed_part (gap, key, value) = true ->
  all_bytes (fun a => negb (Regexp.is_word a)) gap = true
  /\ key <> "" /\ all_bytes Regexp.is_word key = true
  /\ all_bytes Regexp.not_quote value = true.
Proof.
  unfold well_formed_part. rewrite !andb_true_iff, negb_true_iff.
  intros [[[Hgap Hne] Hkey] Hval]. apply String.eqb_neq in Hne. done.
Qed.

Lemma FindAllString_challenge_text (parts : list (string * string * string))
    (tail : string) :
  forallb well_formed_part parts = true ->
  all_bytes (fun a => negb (Regexp.is_word a)) tail = true ->
  Regexp.FindAllString (challenge_text parts tail) = part_text <$> parts.
Proof.
  intros Hparts Htail. unfold Regexp.FindAllString.
  induction parts as [|[[gap key] value] parts IH].
  - cbn. rewrite <- (append_nil_r_str tail).
    by rewrite FindAllString_from_gap.
  - cbn [forallb] in Hparts. apply andb_true_iff in Hparts as [Hpart Hparts].
    apply well_formed_part_spec in Hpart as (Hgap & Hne & Hkey & Hval).
    cbn [challenge_text fmap list_fmap part_text].
    rewrite FindAllString_from_gap by done.
    rewrite <- (IH Hparts).
    rewrite <- !append_assoc_str. rewrite (append_assoc_str key).
    apply FindAllString_from_match.
    + destruct key; [done | discriminate].
    + rewrite !append_assoc_str. by apply match_here_part.
Qed.

(** The loop of the parser on the parts found. *)
Lemma parseAuthHeader_range_parts (parts : list (string * string * string))
    (parsed : gmap string string) :
  forallb well_formed_part parts = true ->
  parseAuthHeader_range (part_text <$> parts) parsed
  = Done (fold_left (fun m (part : string * string * string) =>
                       let '(_, k, v) := part in <[k := v]> m) parts parsed).
Proof.
  revert parsed. induction parts as [|[[gap key] value] parts IH];
    intros parsed Hparts; [reflexivity|].
  cbn [forallb] in Hparts. apply andb_true_iff in Hparts as [Hpart Hparts].
  apply well_formed_part_spec in Hpart as (_ & _ & Hkey & _).
  cbn [fmap list_fmap part_text parseAuthHeader_range fold_left].
  assert (Hno : ~ occurs "=" key).
  { intros Hocc. apply all_bytes_spec with (a := "="%char) in Hkey; [|done].
    discriminate Hkey. }
  destruct (first_segment_unique "=" key (in_quotes value) _ eq_refl Hno)
    as (Hf & Ht & Hd).
  change (key +:+ "=" +:+ in_quotes value)
    with (key +:+ String "=" (in_quotes value)).
  rewrite SplitN_byte_2, Hf, Ht, Hd.
  cbn [index lookup list_lookup mbind Outcome_bind].
  assert (Hslice : slice (in_quotes value) 1
                     (Z.of_nat (String.length (in_quotes value)) - 1)
                   = Done value).
  { unfold slice, in_quotes. cbn [String.length].
    rewrite length_append_str. cbn [String.length].
    replace ((0 <=? 1)%Z && _ && _) with true
      by (symmetry; rewrite !andb_true_iff, !Z.leb_le; lia).
    f_equal.
    replace (Z.to_nat (Z.of_nat (S (String.length value + 1)) - 1)
             - Z.to_nat 1)%nat with (String.length value) by lia.
    change (Z.to_nat 1) with 1%nat. cbn [drop_str].
    apply take_str_append. }
  rewrite Hslice. apply IH, Hparts.
Qed.

Lemma last_value_fold (key : string) (parts : list (string * string * string))
    (parsed : gmap string string) :
  default "" (fold_left (fun m (part : string * string * string) =>
                           let '(_, k, v) := part in <[k := v]> m)
                        parts parsed !! key)
  = fold_left (fun acc (part : string * string * string) =>
                 let '(_, k, v) := part in if (k =? key)%string then v else acc)
              parts (default "" (parsed !! key)).
Proof.
  revert parsed. induction parts as [|[[gap k] v] parts IH]; intros parsed;
    [reflexivity|].
  cbn [fold_left]. rewrite IH. f_equal.
  destruct (k =? key)%string eqn:E.
  - apply String.eqb_eq in E. subst. by rewrite lookup_insert_eq.
  - apply String.eqb_neq in E. by rewrite lookup_insert_ne.
Qed.

(** X3.  Parsing what was written.  When a challenge is a sequence of
    parts, each a non-empty key of letters, digits and underscores, an equals
    sign and a value in quotes that holds no quote, with any text free of
    letters, digits and underscores before, between and after the parts,
    [parseAuthHeader] returns the values of realm, service and scope: for
    each key the value of the last part that has it, and the empty string
    when no part has it. *)
Theorem parseAuthHeader_challenge_text
    (parts : list (string * string * string)) (tail : string) :
  forallb well_formed_part parts = true ->
  all_bytes (fun a => negb (Regexp.is_word a)) tail = true ->
  parseAuthHeader (challenge_text parts tail)
  = Done (last_value "realm" parts, last_value "service" parts,
          last_value "scope" parts).
Proof.
  intros Hparts Htail. unfold parseAuthHeader.
  rewrite FindAllString_challenge_text by done.
  rewrite parseAuthHeader_range_parts by done.
  cbn [mbind Outcome_bind mret Outcome_ret].
  by rewrite !last_value_fold.
Qed.

Lemma parseAuthHeader_challenge_text_witness :
  parseAuthHeader
    (challenge_text
       [("", "realm", "https://auth.example.com/token");
        (", ", "scope", "repository:foo:pull");
        (" ,", "scope", "repository:bar:pull")] " ")
  = Done ("https://auth.example.com/token", "", "repository:bar:pull").
Proof.
  apply (parseAuthHeader_challenge_text
           [("", "realm", "https://auth.example.com/token");
            (", ", "scope", "repository:foo:pull");
            (" ,", "scope", "repository:bar:pull")] " ").
  - vm_compute. reflexivity.
  - vm_compute. reflexivity.
Defined.

Lemma last_value_pairs (key : string)
    (parts : list (string * string * string)) (acc : string) :
  fold_left (fun acc (part : string * string * string) =>
               let '(_, k, v) := part in if (k =? key)%string then v else acc)
            parts acc
  = fold_left (fun acc (kv : string * string) =>
                 if (kv.1 =? key)%string then kv.2 else acc)
              (key_value <$> parts) acc.
Proof.
  revert acc. induction parts as [|[[g k] v] parts IH]; intros acc;
    [reflexivity|].
  cbn [fold_left fmap list_fmap]. apply IH.
Qed.

Lemma last_value_perm_acc (key : string) (kvs kvs' : list (string * string)) :
  kvs ≡ₚ kvs' ->
  NoDup (kvs.*1) ->
  forall acc,
    fold_left (fun acc (kv : string * string) =>
                 if (kv.1 =? key)%string then kv.2 else acc) kvs acc
    = fold_left (fun acc (kv : string * string) =>
                   if (kv.1 =? key)%string then kv.2 else acc) kvs' acc.
Proof.
  induction 1 as [|[k v] l l' Hp IH|[k1 v1] [k2 v2] l
                  |l1 l2 l3 Hp1 IH1 Hp2 IH2]; intros Hnd acc.
  - reflexivity.
  - cbn [fold_left]. apply IH. by apply NoDup_cons in Hnd as [_ Hnd].
  - cbn [fold_left]. f_equal.
    cbn in Hnd. apply NoDup_cons in Hnd as [Hnin _].
    assert (Hne : k2 <> k1).
    { intros ->. apply Hnin. by left. }
    cbn [fst snd].
    destruct (k1 =? key)%string eqn:E1, (k2 =? key)%string eqn:E2;
      try reflexivity.
    apply String.eqb_eq in E1, E2. congruence.
  - rewrite IH1 by done. apply IH2. by rewrite <- Hp1.
Qed.

(** X4.  The order of the parts does not matter when no key comes twice:
    two challenges written from the same keys and values, in different
    orders and with different gaps, parse to the same realm, service and
    scope. *)
Theorem parseAuthHeader_order_independent
    (parts parts' : list (string * string * string)) (tail tail' : string) :
  key_value <$> parts ≡ₚ key_value <$> parts' ->
  NoDup ((key_value <$> parts).*1) ->
  forallb well_formed_part parts = true ->
  forallb well_formed_part parts' = true ->
  all_bytes (fun a => negb (Regexp.is_word a)) tail = true ->
  all_bytes (fun a => negb (Regexp.is_word a)) tail' = true ->
  parseAuthHeader (challenge_text parts tail)
  = parseAuthHeader (challenge_text parts' tail').
Proof.
  intros Hperm Hnd Hwf Hwf' Htail Htail'.
  rewrite !parseAuthHeader_challenge_text by done.
  unfold last_value. rewrite !last_value_pairs.
  by rewrite !(last_value_perm_acc _ _ _ Hperm Hnd).
Qed.

Lemma parseAuthHeader_order_independent_witness :
  parseAuthHeader
    (challenge_text
       [("", "realm", "https://auth.example.com/token");
        (",", "service", "registry.example.com");
        (",", "scope", "repository:foo:pull")] "")
  = parseAuthHeader
      (challenge_text
         [("", "scope", "repository:foo:pull");
          (", ", "realm", "https://auth.example.com/token");
          (", ", "service", "registry.example.com")] " ").
Proof.
  apply parseAuthHeader_order_independent.
  - vm_compute. symmetry.
    apply (Permutation_cons_append
             [("realm", "https://auth.example.com/token");
              ("service", "registry.example.com")]
             ("scope", "repository:foo:pull")).
  - apply (bool_decide_unpack _). vm_compute. exact I.
  - vm_compute. reflexivity.
  - vm_compute. reflexivity.
  - reflexivity.
  - reflexivity.
Defined.

(** ** The platform check, case by case *)

Lemma range_Manifests_existsb (arch os : string) (descs : list Descriptor.t) :
  range_Manifests arch os descs = existsb (descriptor_accepts arch os) descs.
Proof.
  induction descs as [|desc descs IH]; [reflexivity|].
  cbn [range_Manifests existsb]. unfold descriptor_accepts at 1.
  destruct (Descriptor.Platform desc) as [p|]; [|reflexivity].
  destruct (match_ arch (Platform.Architecture p)
            && match_ os (Platform.OS p)); [reflexivity | exact IH].
Qed.

Lemma manifest_response_getManifests (env : Env) (tag : string) (w w1 : World)
    (resp : Response) (mediaType : string) :
  manifest_response env tag w w1 resp mediaType ->
  getManifests env tag w = (Done (inr (mediaType, Body resp)), w1).
Proof. intros (Hf & H200 & Hct). by apply getManifests_ok. Qed.

(** X5.  For an index or manifest-list response that decodes,
    [HasPlatformImage] returns nil exactly when some descriptor of the list
    has no platform or matches the requested arch and os, and the error no
    image otherwise, without a further request.  So the order of the
    descriptors does not change the result; an empty list gives the error
    whatever is asked; and the empty arch and os are satisfied by any list
    that is not empty. *)
Theorem HasPlatformImage_index_decision (env : Env) (tag arch os : string)
    (w w1 : World) (resp : Response) (mediaType : string)
    (manifestList : Index.t) :
  manifest_response env tag w w1 resp mediaType ->
  mediaType = ocispec.MediaTypeImageIndex
  \/ mediaType = mediaTypeDockerSchema2ManifestList ->
  decode_Index env (Body resp) = inr manifestList ->
  HasPlatformImage env tag arch os w
  = (Done (if existsb (descriptor_accepts arch os)
                (Index.Manifests manifestList)
           then None else Some (no_image arch os)), w1)
  /\ (forall descs, descs ≡ₚ Index.Manifests manifestList ->
        existsb (descriptor_accepts arch os) descs
        = existsb (descriptor_accepts arch os) (Index.Manifests manifestList))
  /\ (Index.Manifests manifestList = [] ->
      HasPlatformImage env tag arch os w = (Done (Some (no_image arch os)), w1))
  /\ (Index.Manifests manifestList <> [] ->
      HasPlatformImage env tag "" "" w = (Done None, w1)).
Proof.
  intros Hresp Hmt Hdec.
  assert (Hrun : forall arch os,
            HasPlatformImage env tag arch os w
            = (Done (if existsb (descriptor_accepts arch os)
                          (Index.Manifests manifestList)
                     then None else Some (no_image arch os)), w1)).
  { intros arch' os'. unfold HasPlatformImage. run.
    rewrite (manifest_response_getManifests _ _ _ _ _ _ Hresp).
    assert (Hsw : ((mediaType =? ocispec.MediaTypeImageIndex)
                   || (mediaType =? mediaTypeDockerSchema2ManifestList))%string
                  = true).
    { destruct Hmt as [-> | ->]; reflexivity. }
    rewrite Hsw, Hdec, range_Manifests_existsb.
    by destruct (existsb _ _). }
  split; [apply Hrun|]. split; [|split].
  - intros descs Hperm.
    apply eq_true_iff_eq. rewrite !existsb_exists.
    split; intros (d & Hin & Hd); exists d; (split; [|exact Hd]).
    + eapply Permutation_in; [exact Hperm | exact Hin].
    + eapply Permutation_in; [symmetry; exact Hperm | exact Hin].
  - intros Hnil. rewrite Hrun, Hnil. reflexivity.
  - intros Hne. rewrite Hrun.
    destruct (Index.Manifests manifestList) as [|d descs]; [done|].
    cbn [existsb]. unfold descriptor_accepts at 1.
    destruct (Descriptor.Platform d); reflexivity.
Qed.

Lemma HasPlatformImage_index_decision_witness :
  HasPlatformImage Scenario.platform_index "latest" "arm64" "linux"
    Scenario.start
  = (Done None,
     snd (fetchManifests Scenario.platform_index "GET" "latest"
            Scenario.start)).
Proof.
  refine (proj1 (HasPlatformImage_index_decision Scenario.platform_index
                   "latest" "arm64" "linux" Scenario.start _
                   (Scenario.ok mediaTypeDockerSchema2ManifestList
                      "platform index")
                   mediaTypeDockerSchema2ManifestList
                   Scenario.platform_index_doc _ _ _)).
  - split; [vm_compute; reflexivity|].
    split; [reflexivity | vm_compute; reflexivity].
  - right. reflexivity.
  - reflexivity.
Defined.

(** X6.  [HasPlatformImage] does not handle a status other than 200 and
    never logs in: when the manifest request fails in transport it returns
    that error, and when it is answered with another status, 401 with a
    Bearer challenge included, it returns the status text as an error;
    in both cases it sends nothing more. *)
Theorem HasPlatformImage_status_error (env : Env) (tag arch os : string)
    (w w1 : World) (r : error + Response) :
  fetchManifests env "GET" tag w = (Done r, w1) ->
  (forall err, r = inl err ->
     HasPlatformImage env tag arch os w = (Done (Some err), w1))
  /\ (forall resp, r = inr resp -> StatusCode resp <> 200%Z ->
        HasPlatformImage env tag arch os w
        = (Done (Some (errors_New (Status resp))), w1)).
Proof.
  intros Hf. split.
  - intros err ->. unfold HasPlatformImage. run.
    by rewrite getManifests_unfold, Hf.
  - intros resp -> Hne. unfold HasPlatformImage. run.
    rewrite getManifests_unfold, Hf.
    apply Z.eqb_neq in Hne. by rewrite Hne.
Qed.

Lemma HasPlatformImage_status_error_witness :
  HasPlatformImage Scenario.always_challenging "latest" "arm64" "linux"
    Scenario.start
  = (Done (Some (errors_New "401 Unauthorized")),
     snd (fetchManifests Scenario.always_challenging "GET" "latest"
            Scenario.start)).
Proof.
  refine (proj2 (HasPlatformImage_status_error Scenario.always_challenging
                   "latest" "arm64" "linux" Scenario.start _ _ _)
                (Scenario.unauthorized Scenario.bearer_challenge) _ _).
  - vm_compute. reflexivity.
  - reflexivity.
  - vm_compute. discriminate.
Defined.

(** X7.  A media type that is none of the six the switch names, the
    empty one of a response without a content type included, makes
    [HasPlatformImage] return the error unknown MediaType followed by the
    media type, without decoding the body and without a further request. *)
Theorem HasPlatformImage_unknown_media_type (env : Env) (tag arch os : string)
    (w w1 : World) (resp : Response) (mediaType : string) :
  manifest_response env tag w w1 resp mediaType ->
  mediaType <> ocispec.MediaTypeImageIndex ->
  mediaType <> mediaTypeDockerSchema2ManifestList ->
  mediaType <> mediaTypeDockerSchema2Manifest ->
  mediaType <> ocispec.MediaTypeImageManifest ->
  mediaType <> "application/vnd.docker.distribution.manifest.v1+prettyjws" ->
  mediaType <> "application/vnd.docker.distribution.manifest.v1+json" ->
  HasPlatformImage env tag arch os w
  = (Done (Some (fmt_Errorf ("unknown MediaType " +:+ mediaType))), w1).
Proof.
  intros Hresp H1 H2 H3 H4 H5 H6. unfold HasPlatformImage. run.
  rewrite (manifest_response_getManifests _ _ _ _ _ _ Hresp).
  apply String.eqb_neq in H1, H2, H3, H4, H5, H6.
  by rewrite H1, H2, H3, H4, H5, H6.
Qed.

Lemma HasPlatformImage_unknown_media_type_witness :
  HasPlatformImage Fixture.web_page "latest" "arm64" "linux" Scenario.start
  = (Done (Some (fmt_Errorf "unknown MediaType text/html")),
     snd (fetchManifests Fixture.web_page "GET" "latest" Scenario.start)).
Proof.
  refine (HasPlatformImage_unknown_media_type Fixture.web_page
            "latest" "arm64" "linux" Scenario.start _
            (Scenario.ok "text/html; charset=utf-8" "<html>") "text/html"
            _ _ _ _ _ _ _).
  - split; [vm_compute; reflexivity|].
    split; [reflexivity | vm_compute; reflexivity].
  - discriminate.
  - discriminate.
  - discriminate.
  - discriminate.
  - discriminate.
  - discriminate.
Defined.

(** X8.  A body that does not decode makes [HasPlatformImage] return
    the decoder's error wrapped in a text that names the document: manifest
    list, manifest, or image config. *)
Theorem HasPlatformImage_decode_errors (env : Env) (tag arch os : string)
    (w w1 : World) (resp : Response) (mediaType : string) (err : error) :
  manifest_response env tag w w1 resp mediaType ->
  (mediaType = ocispec.MediaTypeImageIndex
   \/ mediaType = mediaTypeDockerSchema2ManifestList ->
   decode_Index env (Body resp) = inl err ->
   HasPlatformImage env tag arch os w
   = (Done (Some (fmt_Errorf_w "manifest list decode error: " err)), w1))
  /\ (mediaType = mediaTypeDockerSchema2Manifest
      \/ mediaType = ocispec.MediaTypeImageManifest ->
      decode_Manifest env (Body resp) = inl err ->
      HasPlatformImage env tag arch os w
      = (Done (Some (fmt_Errorf_w "manifest decode error: " err)), w1))
  /\ (mediaType = mediaTypeDockerSchema2Manifest
      \/ mediaType = ocispec.MediaTypeImageManifest ->
      forall manifest rc w2,
        decode_Manifest env (Body resp) = inr manifest ->
        Descriptor.Platform (Manifest.Config manifest) = None ->
        getImageConfig env (Descriptor.Digest (Manifest.Config manifest)) w1
        = (Done (inr rc), w2) ->
        decode_Image env rc = inl err ->
        HasPlatformImage env tag arch os w
        = (Done (Some (fmt_Errorf_w "image config decode error: " err)), w2)).
Proof.
  intros Hresp.
  assert (Hsw1 : mediaType = ocispec.MediaTypeImageIndex
                 \/ mediaType = mediaTypeDockerSchema2ManifestList ->
                 ((mediaType =? ocispec.MediaTypeImageIndex)
                  || (mediaType =? mediaTypeDockerSchema2ManifestList))%string
                 = true).
  { intros [-> | ->]; reflexivity. }
  assert (Hsw2 : mediaType = mediaTypeDockerSchema2Manifest
                 \/ mediaType = ocispec.MediaTypeImageManifest ->
                 ((mediaType =? ocispec.MediaTypeImageIndex)
                  || (mediaType =? mediaTypeDockerSchema2ManifestList))%string
                 = false
                 /\ ((mediaType =? mediaTypeDockerSchema2Manifest)
                     || (mediaType =? ocispec.MediaTypeImageManifest))%string
                    = true).
  { intros [-> | ->]; split; reflexivity. }
  split; [|split].
  - intros Hmt Hdec. unfold HasPlatformImage. run.
    rewrite (manifest_response_getManifests _ _ _ _ _ _ Hresp).
    by rewrite (Hsw1 Hmt), Hdec.
  - intros Hmt Hdec. unfold HasPlatformImage. run.
    rewrite (manifest_response_getManifests _ _ _ _ _ _ Hresp).
    destruct (Hsw2 Hmt) as [-> ->]. by rewrite Hdec.
  - intros Hmt manifest rc w2 Hdec Hnone Hcfg Himg.
    unfold HasPlatformImage. run.
    rewrite (manifest_response_getManifests _ _ _ _ _ _ Hresp).
    destruct (Hsw2 Hmt) as [-> ->]. by rewrite Hdec, Hnone, Hcfg, Himg.
Qed.

Lemma HasPlatformImage_decode_errors_witness :
  HasPlatformImage Fixture.broken_index "latest" "arm64" "linux" Scenario.start
  = (Done (Some (fmt_Errorf_w "manifest list decode error: "
                   (foreign "unexpected end of JSON input"))),
     snd (fetchManifests Fixture.broken_index "GET" "latest" Scenario.start)).
Proof.
  refine (proj1 (HasPlatformImage_decode_errors Fixture.broken_index
                   "latest" "arm64" "linux" Scenario.start _
                   (Scenario.ok ocispec.MediaTypeImageIndex "{")
                   ocispec.MediaTypeImageIndex _ _) _ _).
  - split; [vm_compute; reflexivity|].
    split; [reflexivity | vm_compute; reflexivity].
  - left. reflexivity.
  - reflexivity.
Defined.

(** X9.  The fallback to the image config.  For a single manifest
    without a platform on its config descriptor, the result is that of the
    config blob fetched by the digest of that descriptor: the error of the
    fetch when it fails; otherwise nil when the architecture and the os of
    the image config match the request, and the error no image when they do
    not. *)
Theorem HasPlatformImage_fallback_outcomes (env : Env) (tag arch os : string)
    (w w1 w2 : World) (resp : Response) (mediaType : string)
    (manifest : Manifest.t) (r2 : error + string) :
  manifest_response env tag w w1 resp mediaType ->
  mediaType = mediaTypeDockerSchema2Manifest
  \/ mediaType = ocispec.MediaTypeImageManifest ->
  decode_Manifest env (Body resp) = inr manifest ->
  Descriptor.Platform (Manifest.Config manifest) = None ->
  getImageConfig env (Descriptor.Digest (Manifest.Config manifest)) w1
  = (Done r2, w2) ->
  (forall err, r2 = inl err ->
     HasPlatformImage env tag arch os w = (Done (Some err), w2))
  /\ (forall rc image, r2 = inr rc -> decode_Image env rc = inr image ->
        HasPlatformImage env tag arch os w
        = (Done (if match_ arch (Image.Architecture image)
                    && match_ os (Image.OS image)
                 then None else Some (no_image arch os)), w2)).
Proof.
  intros Hresp Hmt Hdec Hnone Hcfg.
  assert (Hsw : ((mediaType =? ocispec.MediaTypeImageIndex)
                 || (mediaType =? mediaTypeDockerSchema2ManifestList))%string
                = false
                /\ ((mediaType =? mediaTypeDockerSchema2Manifest)
                    || (mediaType =? ocispec.MediaTypeImageManifest))%string
                   = true).
  { destruct Hmt as [-> | ->]; split; reflexivity. }
  destruct Hsw as [Hsw1 Hsw2]. split.
  - intros err ->. unfold HasPlatformImage. run.
    rewrite (manifest_response_getManifests _ _ _ _ _ _ Hresp).
    by rewrite Hsw1, Hsw2, Hdec, Hnone, Hcfg.
  - intros rc image -> Himg. unfold HasPlatformImage. run.
    rewrite (manifest_response_getManifests _ _ _ _ _ _ Hresp).
    rewrite Hsw1, Hsw2, Hdec, Hnone, Hcfg, Himg.
    by destruct (match_ arch _ && match_ os _).
Qed.

Lemma HasPlatformImage_fallback_outcomes_witness :
  HasPlatformImage Fixture.missing_config "latest" "arm64" "linux"
    Scenario.start
  = (Done (Some (errors_New "404 Not Found")),
     snd (HasPlatformImage Fixture.missing_config "latest" "arm64" "linux"
            Scenario.start)).
Proof.
  refine (proj1 (HasPlatformImage_fallback_outcomes Fixture.missing_config
                   "latest" "arm64" "linux" Scenario.start _ _
                   (Scenario.ok ocispec.MediaTypeImageManifest "plain manifest")
                   ocispec.MediaTypeImageManifest Scenario.plain_manifest_doc
                   (inl (errors_New "404 Not Found")) _ _ _ _ _) _ _).
  - split; [vm_compute; reflexivity|].
    split; [reflexivity | vm_compute; reflexivity].
  - right. reflexivity.
  - reflexivity.
  - reflexivity.
  - vm_compute. reflexivity.
  - reflexivity.
Defined.

(** The same manifest with its config blob present: arm64 and any os are
    satisfied by the image config. *)
Example HasPlatformImage_fallback_match :
  fst (HasPlatformImage Scenario.plain_manifest "latest" "arm64" ""
         Scenario.start)
  = Done None.
Proof. vm_compute. reflexivity. Qed.

(** ** The config blob request *)

Lemma setAuthHeader_URL (c : Repository) (req : Request) :
  URL (setAuthHeader c req) = URL req.
Proof.
  unfold setAuthHeader.
  destruct ((user c =? "AWS") && negb (password c =? ""))%string;
    [reflexivity|].
  destruct (negb (token c =? ""))%string; reflexivity.
Qed.

Lemma registry_url (c : Repository) (rest : string) :
  "https://" +:+ host c +:+ "/v2/" +:+ repo c +:+ rest
  = registry_base c +:+ rest.
Proof.
  unfold registry_base. rewrite !append_assoc_str.
  reflexivity.
Qed.

(** X10.  [getImageConfig] sends one GET to the blobs URL of the digest,
    with an Accept header that lists the Docker and the OCI image config
    media types, and leaves the handle as it was.  It returns the error of
    the transport, the status text as an error for a status other than 200,
    and the body for 200.  The error of building the request is dropped:
    when the HTTP library rejects the URL nothing is sent and the call
    panics. *)
Theorem getImageConfig_outcomes (env : Env) (digest : string) (w : World) :
  let u := registry_base (handle w) +:+ "/blobs/" +:+ digest in
  (forall err, NewRequest env "GET" u = inl err ->
     getImageConfig env digest w = (Panic "nil pointer dereference", w))
  /\ (forall req0, NewRequest env "GET" u = inr req0 ->
        exists req w',
          sent w w' [req] /\ handle w' = handle w
          /\ Method req = "GET" /\ URL req = u
          /\ Header.Get (ReqHeader req) "Accept"
             = "application/vnd.docker.container.image.v1+json, "
               +:+ "application/vnd.oci.image.config.v1+json"
          /\ getImageConfig env digest w
             = (Done match transport env (wire w) req with
                     | inl err => inl err
                     | inr resp =>
                         if (StatusCode resp =? 200)%Z
                         then inr (Body resp)
                         else inl (errors_New (Status resp))
                     end, w')).
Proof.
  cbn zeta. rewrite <- registry_url. split.
  - intros err E. by rewrite getImageConfig_unfold, E.
  - intros req0 E. rewrite getImageConfig_unfold, E. cbn zeta.
    apply NewRequest_Method in E as (Hm & Hu & Hh).
    set (req := setAuthHeader (handle w)
                  (Request_Header_Set "Accept"
                     (Strings.Join
                        ["application/vnd.docker.container.image.v1+json";
                         ocispec.MediaTypeImageConfig] ", ") req0)).
    exists req, (mkWorld (handle w) (wire w ++ [req])).
    split; [reflexivity|]. split; [reflexivity|]. subst req.
    split; [by rewrite setAuthHeader_Method|].
    split; [by rewrite setAuthHeader_URL|].
    split.
    + unfold Header.Get. rewrite setAuthHeader_other_key by discriminate.
      cbn. unfold Header.Set_. by rewrite lookup_insert_eq.
    + f_equal. f_equal. destruct (transport env _ _) as [err|resp];
        [reflexivity|].
      by destruct (StatusCode resp =? 200)%Z.
Qed.

Lemma getImageConfig_outcomes_witness :
  getImageConfig Fixture.spaced_digest "sha256:c0 c1" Scenario.start
  = (Panic "nil pointer dereference", Scenario.start).
Proof.
  refine (proj1 (getImageConfig_outcomes Fixture.spaced_digest "sha256:c0 c1"
                   Scenario.start)
                (foreign "invalid character in URL") _).
  vm_compute. reflexivity.
Defined.

(** ** What the platform check sends *)

Lemma getManifests_trace (env : Env) (tag : string) (w : World) :
  exists r w1,
    getManifests env tag w = (Done r, w1)
    /\ handle w1 = handle w
    /\ ((sent w w1 [] /\ exists err, r = inl err)
        \/ exists m, sent w w1 [m] /\ Method m = "GET"
                     /\ URL m = registry_base (handle w)
                                +:+ "/manifests/" +:+ tag).
Proof.
  rewrite getManifests_unfold, fetchManifests_unfold, registry_url.
  destruct (NewRequest env "GET" _) as [err|req0] eqn:E.
  - eexists _, w. split; [reflexivity|]. split; [reflexivity|].
    left. split; [|by eexists]. unfold sent. by rewrite app_nil_r.
  - apply NewRequest_Method in E as (Hm & Hu & _). cbn zeta.
    set (req := setAuthHeader (handle w)
                  (Request_Header_Set "Accept" manifest_Accept req0)).
    assert (Hreq : forall r : error + string * string,
                     (sent w (mkWorld (handle w) (wire w ++ [req])) []
                      /\ exists err, r = inl err)
                     \/ exists m, sent w (mkWorld (handle w) (wire w ++ [req])) [m]
                                /\ Method m = "GET"
                                /\ URL m = registry_base (handle w)
                                           +:+ "/manifests/" +:+ tag).
    { intros r. right. exists req. split; [reflexivity|]. subst req.
      by rewrite setAuthHeader_Method, setAuthHeader_URL. }
    destruct (transport env (wire w) req) as [err|resp];
      [by eexists _, _|].
    destruct (negb (StatusCode resp =? 200)%Z); [by eexists _, _|].
    destruct (parseContentType_total
                (Header.Get (RespHeader resp) "Content-Type")) as [mt ->].
    by eexists _, _.
Qed.

(** X11.  [HasPlatformImage] never changes the handle, its token
    included, and sends at most two requests, both GET: the request for the
    manifest of the tag and then, at most, one for a config blob of the
    same repository.  It never sends a request to a token endpoint. *)
Theorem HasPlatformImage_requests (env : Env) (tag arch os : string)
    (w : World) :
  exists r w' reqs,
    HasPlatformImage env tag arch os w = (r, w')
    /\ handle w' = handle w
    /\ sent w w' reqs
    /\ (reqs = []
        \/ exists m,
            Method m = "GET"
            /\ URL m = registry_base (handle w) +:+ "/manifests/" +:+ tag
            /\ (reqs = [m]
                \/ exists b digest,
                    reqs = [m; b] /\ Method b = "GET"
                    /\ URL b = registry_base (handle w)
                               +:+ "/blobs/" +:+ digest)).
Proof.
  unfold HasPlatformImage. run.
  destruct (getManifests_trace env tag w) as (r & w1 & -> & Hh1 & Hs1).
  assert (Hleaf : forall r0 : Outcome (option error),
            exists r w' reqs,
              (r0, w1) = (r, w') /\ handle w' = handle w /\ sent w w' reqs
              /\ (reqs = []
                  \/ exists m,
                      Method m = "GET"
                      /\ URL m = registry_base (handle w)
                                 +:+ "/manifests/" +:+ tag
                      /\ (reqs = [m]
                          \/ exists b digest,
                              reqs = [m; b] /\ Method b = "GET"
                              /\ URL b = registry_base (handle w)
                                         +:+ "/blobs/" +:+ digest))).
  { intros r0. destruct Hs1 as [[Hs _]|(m & Hs & Hm & Hu)].
    - exists r0, w1, []. split_and!; try done. by left.
    - exists r0, w1, [m]. split_and!; try done. right. exists m.
      split_and!; try done. by left. }
  destruct r as [err|[mediaType rc]]; [apply Hleaf|].
  destruct ((mediaType =? ocispec.MediaTypeImageIndex)
            || (mediaType =? mediaTypeDockerSchema2ManifestList))%string.
  { destruct (decode_Index env rc) as [err|manifestList]; [apply Hleaf|].
    destruct (range_Manifests arch os _); apply Hleaf. }
  destruct ((mediaType =? mediaTypeDockerSchema2Manifest)
            || (mediaType =? ocispec.MediaTypeImageManifest))%string.
  2:{ destruct ((mediaType =? _) || (mediaType =? _))%string; apply Hleaf. }
  destruct (decode_Manifest env rc) as [err|manifest]; [apply Hleaf|].
  destruct (match Descriptor.Platform (Manifest.Config manifest) with
            | Some p => _
            | None => false
            end); [apply Hleaf|].
  set (digest := Descriptor.Digest (Manifest.Config manifest)).
  pose proof (getImageConfig_outcomes env digest w1) as [Hpanic Hsend].
  cbn zeta in Hpanic, Hsend. rewrite Hh1 in Hpanic, Hsend.
  destruct (NewRequest env "GET"
              (registry_base (handle w) +:+ "/blobs/" +:+ digest))
    as [err|req0] eqn:E.
  { rewrite (Hpanic err eq_refl). apply Hleaf. }
  destruct (Hsend req0 eq_refl) as (b & w2 & Hs2 & Hh2 & Hmb & Hub & _ & ->).
  assert (Hleaf2 : forall r0 : Outcome (option error),
            exists r w' reqs,
              (r0, w2) = (r, w') /\ handle w' = handle w /\ sent w w' reqs
              /\ (reqs = []
                  \/ exists m,
                      Method m = "GET"
                      /\ URL m = registry_base (handle w)
                                 +:+ "/manifests/" +:+ tag
                      /\ (reqs = [m]
                          \/ exists b digest,
                              reqs = [m; b] /\ Method b = "GET"
                              /\ URL b = registry_base (handle w)
                                         +:+ "/blobs/" +:+ digest))).
  { intros r0. destruct Hs1 as [[_ [err [=]]]|(m & Hs & Hm & Hu)].
    exists r0, w2, [m; b]. split_and!; [done|congruence| |].
    - unfold sent in *. rewrite Hs2, Hs. by rewrite <- app_assoc.
    - right. exists m. split_and!; try done. right. by exists b, digest. }
  destruct (transport env (wire w1) b) as [err|resp2]; [apply Hleaf2|].
  destruct (StatusCode resp2 =? 200)%Z; [|apply Hleaf2].
  destruct (decode_Image env (Body resp2)) as [err|image]; [apply Hleaf2|].
  destruct (match_ arch _ && match_ os _); apply Hleaf2.
Qed.



(** ** The handle through an existence check *)

Lemma handle_kept_refl (c : Repository) : handle_kept c c.
Proof. unfold handle_kept. tauto. Qed.

Lemma handle_kept_trans (c1 c2 c3 : Repository) :
  handle_kept c1 c2 -> handle_kept c2 c3 -> handle_kept c1 c3.
Proof.
  unfold handle_kept.
  intros (H1 & H2 & H3 & H4 & H5) (H1' & H2' & H3' & H4' & H5').
  split_and!; try congruence.
  destruct H5' as [->|H]; [exact H5 | by right].
Qed.

(** [login] returns nil only with a token that is not empty stored, and
    leaves the handle as it was when it returns an error. *)
Lemma login_handle (env : Env) (endpoint service scope : string) (w : World) :
  exists e w',
    login env endpoint service scope w = (Done e, w')
    /\ (e = None -> exists tok, tok <> ""
                                /\ handle w' = set_token tok (handle w))
    /\ (e <> None -> handle w' = handle w).
Proof.
  unfold login.
  destruct (url_Parse env endpoint) as [err|u]; [by eexists _, _|].
  destruct (NewRequest env "GET" _) as [err|req0]; [by eexists _, _|].
  run. destruct (transport env _ _) as [err|resp]; [by eexists _, _|].
  destruct (negb (StatusCode resp =? 200)%Z); [by eexists _, _|].
  destruct (decode_Token env (Body resp)) as [err|tok]; [by eexists _, _|].
  destruct (tok =? "")%string eqn:E; [by eexists _, _|].
  apply String.eqb_neq in E.
  eexists _, _. split; [reflexivity|]. split; [|done].
  intros _. by exists tok.
Qed.

Lemma answer_challenge_handle (env : Env) (resp : Response) (w : World) :
  exists e w',
    answer_challenge env resp w = (Done e, w')
    /\ handle_kept (handle w) (handle w')
    /\ (e <> None -> handle w' = handle w)
    /\ (e = None ->
        Strings.HasPrefix (Header.Get (RespHeader resp) "Www-Authenticate")
                          "Bearer " = true ->
        token (handle w') <> "").
Proof.
  unfold answer_challenge.
  destruct (Strings.HasPrefix _ "Bearer ") eqn:Eb.
  - apply HasPrefix_Bearer in Eb as (auth & _ & ->).
    destruct (parseAuthHeader_total auth) as (endpoint & service & scope & Hp).
    run. cbn [index lookup list_lookup]. rewrite Hp.
    destruct (login_handle env endpoint service scope w)
      as (e & w' & -> & Hnil & Herr).
    exists e, w'. split; [reflexivity|]. split; [|split; [exact Herr|]].
    + destruct e as [err|].
      * rewrite Herr by done. apply handle_kept_refl.
      * destruct (Hnil eq_refl) as (tok & Htok & ->).
        unfold handle_kept. cbn. split_and!; try done. by right.
    + intros He _. destruct (Hnil He) as (tok & Htok & ->). exact Htok.
  - exists None, w. split; [reflexivity|]. split; [apply handle_kept_refl|].
    split; [done | discriminate].
Qed.

Lemma HasImage_for_keeps_handle (env : Env) (tag : string) (tries : nat) :
  forall w, handle_kept (handle w) (handle (HasImage_for env tries tag w).2).
Proof.
  induction tries as [|tries IH]; intros w; [apply handle_kept_refl|].
  rewrite HasImage_for_unfold.
  destruct (getAvailability_step env tag w) as (r & w1 & -> & Hh & _).
  assert (H1 : handle_kept (handle w) (handle w1))
    by (rewrite Hh; apply handle_kept_refl).
  destruct r as [err|resp]; [exact H1|].
  destruct (StatusCode resp =? 401)%Z;
    [|by destruct (StatusCode resp =? 200)%Z].
  destruct (answer_challenge_handle env resp w1) as (e & w2 & -> & H2 & _).
  pose proof (handle_kept_trans _ _ _ H1 H2) as H12.
  destruct e as [err|]; [exact H12|].
  eapply handle_kept_trans; [exact H12 | apply IH].
Qed.

(** X13.  [HasImage] changes nothing of the handle but the token: the
    host, the repository, the username and the password after the call are
    those before it, and the token after the call is the token before it or
    a token that is not empty. *)
Theorem HasImage_keeps_handle (env : Env) (tag : string) (w : World) :
  host (handle (HasImage env tag w).2) = host (handle w)
  /\ repo (handle (HasImage env tag w).2) = repo (handle w)
  /\ user (handle (HasImage env tag w).2) = user (handle w)
  /\ password (handle (HasImage env tag w).2) = password (handle w)
  /\ (token (handle (HasImage env tag w).2) = token (handle w)
      \/ token (handle (HasImage env tag w).2) <> "").
Proof. apply (HasImage_for_keeps_handle env tag 2 w). Qed.

(** X14.  Errors end the existence check at once.  When a probe fails
    in transport the call returns (false, that error) and sends nothing
    more; when a probe is answered 401 and answering the challenge fails
    (the login returns an error) the call returns (false, that error) with
    the handle as it was and without probing again. *)
Theorem HasImage_stops_on_errors (env : Env) (tag : string) (tries : nat)
    (w w1 : World) (r : error + Response) :
  getAvailability env tag w = (Done r, w1) ->
  (forall err, r = inl err ->
     HasImage_for env (S tries) tag w = (Done (false, Some err), w1))
  /\ (forall resp err w2,
        r = inr resp -> StatusCode resp = 401%Z ->
        answer_challenge env resp w1 = (Done (Some err), w2) ->
        HasImage_for env (S tries) tag w = (Done (false, Some err), w2)
        /\ handle w2 = handle w).
Proof.
  intros Hp. split.
  - intros err ->. by rewrite HasImage_for_unfold, Hp.
  - intros resp err w2 -> H401 Ha.
    rewrite HasImage_for_unfold, Hp, H401, Z.eqb_refl, Ha.
    split; [reflexivity|].
    destruct (getAvailability_step env tag w) as (r' & w1' & Hp' & Hh & _).
    rewrite Hp in Hp'. injection Hp' as _ <-.
    destruct (answer_challenge_handle env resp w1) as (e & w2' & Ha' & _ & He & _).
    rewrite Ha in Ha'. injection Ha' as <- <-. rewrite He by done. exact Hh.
Qed.

Lemma HasImage_stops_on_errors_witness :
  HasImage Scenario.login_refused "latest" Scenario.start
  = (Done (false, Some (errors_New "login failed 403 Forbidden")),
     snd (HasImage Scenario.login_refused "latest" Scenario.start))
  /\ handle (snd (HasImage Scenario.login_refused "latest" Scenario.start))
     = handle Scenario.start.
Proof.
  refine (proj2 (HasImage_stops_on_errors Scenario.login_refused "latest" 1
                   Scenario.start _ _ _)
                (Scenario.unauthorized Scenario.bearer_challenge) _ _ _ _ _).
  - vm_compute. reflexivity.
  - reflexivity.
  - reflexivity.
  - vm_compute. reflexivity.
Defined.

(** X15.  The token is used at once.  When the challenge of a 401 was a
    Bearer challenge and the login succeeded, the handle holds a token that
    is not empty, and the next probe carries it as its Authorization header
    (Bearer and the token), unless the handle sends static credentials. *)
Theorem HasImage_retry_carries_token (env : Env) (tag : string)
    (w1 w2 w3 : World) (resp : Response) (r : Outcome (error + Response))
    (req : Request) :
  Strings.HasPrefix (Header.Get (RespHeader resp) "Www-Authenticate")
                    "Bearer " = true ->
  answer_challenge env resp w1 = (Done None, w2) ->
  ~ static_credentials (handle w1) ->
  getAvailability env tag w2 = (r, w3) ->
  sent w2 w3 [req] ->
  token (handle w2) <> ""
  /\ ReqHeader req !! "Authorization"
     = Some ["Bearer " +:+ token (handle w2)].
Proof.
  intros Hpre Ha Hstatic Hp Hs.
  destruct (answer_challenge_handle env resp w1)
    as (e & w2' & Ha' & Hk & _ & Htok).
  rewrite Ha in Ha'. injection Ha' as <- <-.
  specialize (Htok eq_refl Hpre). split; [exact Htok|].
  rewrite getAvailability_fetch in Hp.
  destruct (registry_request_shape env w2 w3 req) as (req0 & H0 & ->);
    [left; by exists "HEAD", tag, r | exact Hs |].
  destruct Hk as (_ & _ & Hu & Hpw & _).
  unfold setAuthHeader.
  destruct ((user (handle w2) =? "AWS")
            && negb (password (handle w2) =? ""))%string eqn:E.
  - exfalso. apply Hstatic. apply andb_true_iff in E as [E1 E2].
    apply String.eqb_eq in E1. apply negb_true_iff, String.eqb_neq in E2.
    split; congruence.
  - apply String.eqb_neq in Htok. rewrite Htok. cbn.
    unfold Header.Set_. by rewrite lookup_insert_eq.
Qed.

Lemma HasImage_retry_carries_token_witness :
  token (handle (snd (answer_challenge Scenario.bearer_then_ok
                        (Scenario.unauthorized Scenario.bearer_challenge)
                        Scenario.start))) <> ""
  /\ ReqHeader
       (mkRequest "HEAD"
          "https://registry.example.com/v2/team/app/manifests/latest"
          {[ "Accept" := [manifest_Accept];
             "Authorization" := ["Bearer t0ken"] ]})
       !! "Authorization"
     = Some ["Bearer " +:+
             token (handle (snd (answer_challenge Scenario.bearer_then_ok
                                   (Scenario.unauthorized
                                      Scenario.bearer_challenge)
                                   Scenario.start)))].
Proof.
  refine (HasImage_retry_carries_token Scenario.bearer_then_ok "latest"
            Scenario.start _
            (snd (getAvailability Scenario.bearer_then_ok "latest"
                    (snd (answer_challenge Scenario.bearer_then_ok
                            (Scenario.unauthorized Scenario.bearer_challenge)
                            Scenario.start))))
            (Scenario.unauthorized Scenario.bearer_challenge)
            (fst (getAvailability Scenario.bearer_then_ok "latest"
                    (snd (answer_challenge Scenario.bearer_then_ok
                            (Scenario.unauthorized Scenario.bearer_challenge)
                            Scenario.start))))
            _ _ _ _ _ _).
  - vm_compute. reflexivity.
  - vm_compute. reflexivity.
  - vm_compute. intros [H _]. discriminate H.
  - apply surjective_pairing.
  - vm_compute. reflexivity.
Defined.

(** ** The credentials on the wire *)

Lemma setAuthHeader_authorization (c : Repository) (req0 : Request) :
  ReqHeader req0 !! "Authorization" = None ->
  ReqHeader (setAuthHeader c req0) !! "Authorization" = authorization_of c.
Proof.
  intros H0. unfold setAuthHeader, authorization_of.
  destruct ((user c =? "AWS") && negb (password c =? ""))%string.
  - cbn. unfold Header.Set_. by rewrite lookup_insert_eq.
  - destruct (negb (token c =? ""))%string; [|exact H0].
    cbn. unfold Header.Set_. by rewrite lookup_insert_eq.
Qed.

(** A call to the registry sends at most one request, with the
    Authorization header the handle fixes, and keeps the handle. *)
Lemma registry_call_sends (env : Env) (w w' : World) :
  (exists method tag r, fetchManifests env method tag w = (r, w'))
  \/ (exists digest r, getImageConfig env digest w = (r, w')) ->
  handle w' = handle w
  /\ exists reqs,
      sent w w' reqs
      /\ Forall (fun req => ReqHeader req !! "Authorization"
                            = authorization_of (handle w)) reqs.
Proof.
  intros Hcall.
  assert (Hshape : (handle w' = handle w /\ sent w w' [])
                   \/ (handle w' = handle w /\ exists req, sent w w' [req])).
  { destruct Hcall as [(method & tag & r & Hf)|(digest & r & Hg)].
    - rewrite fetchManifests_unfold in Hf.
      destruct (NewRequest env method _); injection Hf as _ <-.
      + left. split; [reflexivity|]. unfold sent. by rewrite app_nil_r.
      + right. split; [reflexivity|]. by eexists.
    - rewrite getImageConfig_unfold in Hg.
      destruct (NewRequest env "GET" _); injection Hg as _ <-.
      + left. split; [reflexivity|]. unfold sent. by rewrite app_nil_r.
      + right. split; [reflexivity|]. by eexists. }
  destruct Hshape as [[Hh Hs]|[Hh (req & Hs)]]; (split; [exact Hh|]).
  - exists []. split; [exact Hs | constructor].
  - exists [req]. split; [exact Hs|]. constructor; [|constructor].
    destruct (registry_request_shape env w w' req Hcall Hs) as (req0 & H0 & ->).
    by apply setAuthHeader_authorization.
Qed.

(** The calls to the registry that [HasPlatformImage] is made of. *)
Lemma HasPlatformImage_steps (env : Env) (tag arch os : string) (w : World) :
  exists r w',
    HasPlatformImage env tag arch os w = (r, w')
    /\ ((exists r1, fetchManifests env "GET" tag w = (r1, w'))
        \/ exists r1 w1 digest r2,
            fetchManifests env "GET" tag w = (r1, w1)
            /\ getImageConfig env digest w1 = (r2, w')).
Proof.
  unfold HasPlatformImage. run. rewrite getManifests_unfold.
  destruct (fetchManifests env "GET" tag w) as [r1 w1] eqn:Ef.
  assert (Hleaf : forall r0 : Outcome (option error),
            exists r w',
              (r0, w1) = (r, w')
              /\ ((exists r1', (r1, w1) = (r1', w'))
                  \/ exists r1' w1' digest r2,
                      (r1, w1) = (r1', w1')
                      /\ getImageConfig env digest w1' = (r2, w')))
    by (intros r0; exists r0, w1; split; [reflexivity | left; by eexists]).
  destruct r1 as [[err|resp]|msg]; [apply Hleaf| |apply Hleaf].
  destruct (negb (StatusCode resp =? 200)%Z); [apply Hleaf|].
  destruct (parseContentType _) as [mediaType|msg]; [|apply Hleaf].
  destruct ((mediaType =? ocispec.MediaTypeImageIndex)
            || (mediaType =? mediaTypeDockerSchema2ManifestList))%string.
  { destruct (decode_Index env _) as [err|manifestList]; [apply Hleaf|].
    destruct (range_Manifests arch os _); apply Hleaf. }
  destruct ((mediaType =? mediaTypeDockerSchema2Manifest)
            || (mediaType =? ocispec.MediaTypeImageManifest))%string.
  2:{ destruct ((mediaType =? _) || (mediaType =? _))%string; apply Hleaf. }
  destruct (decode_Manifest env _) as [err|manifest]; [apply Hleaf|].
  destruct (match Descriptor.Platform (Manifest.Config manifest) with
            | Some p => _
            | None => false
            end); [apply Hleaf|].
  destruct (getImageConfig env (Descriptor.Digest (Manifest.Config manifest))
              w1) as [r2 w2] eqn:Eg.
  assert (Hleaf2 : forall r0 : Outcome (option error),
            exists r w',
              (r0, w2) = (r, w')
              /\ ((exists r1' : Outcome (error + Response),
                     (Done (inr resp), w1) = (r1', w'))
                  \/ exists (r1' : Outcome (error + Response)) w1' digest r2,
                      (Done (inr resp), w1) = (r1', w1')
                      /\ getImageConfig env digest w1' = (r2, w'))).
  { intros r0. exists r0, w2. split; [reflexivity|]. right.
    by eexists _, w1, _, _. }
  destruct r2 as [[err|rc]|msg]; [apply Hleaf2| |apply Hleaf2].
  destruct (decode_Image env rc) as [err|image]; [apply Hleaf2|].
  destruct (match_ arch _ && match_ os _); apply Hleaf2.
Qed.

(** The requests of [HasPlatformImage] and their Authorization header. *)
Lemma HasPlatformImage_sends (env : Env) (tag arch os : string) (w : World) :
  exists reqs,
    sent w (HasPlatformImage env tag arch os w).2 reqs
    /\ Forall (fun req => ReqHeader req !! "Authorization"
                          = authorization_of (handle w)) reqs.
Proof.
  destruct (HasPlatformImage_steps env tag arch os w)
    as (r & w' & -> & [(r1 & Hf)|(r1 & w1 & digest & r2 & Hf & Hg)]).
  - destruct (registry_call_sends env w w') as (_ & reqs & Hs & Hall);
      [left; by exists "GET", tag, r1|].
    by exists reqs.
  - destruct (registry_call_sends env w w1) as (Hh & reqs1 & Hs1 & Hall1);
      [left; by exists "GET", tag, r1|].
    destruct (registry_call_sends env w1 w') as (_ & reqs2 & Hs2 & Hall2);
      [right; by exists digest, r2|].
    rewrite Hh in Hall2.
    exists (reqs1 ++ reqs2). split; [|by apply Forall_app].
    unfold sent in *. cbn [snd]. by rewrite Hs2, Hs1, app_assoc.
Qed.

Lemma authorization_of_other_user (c : Repository) :
  user c <> "AWS" ->
  authorization_of c
  = if decide (token c = "") then None else Some ["Bearer " +:+ token c].
Proof.
  intros Hu. unfold authorization_of.
  apply String.eqb_neq in Hu. rewrite Hu. cbn [andb].
  destruct (decide (token c = "")) as [->|Hne]; [reflexivity|].
  apply String.eqb_neq in Hne. by rewrite Hne.
Qed.

(** X16.  Every request that [HasPlatformImage] sends carries the
    Authorization header that the handle fixes at the start of the call:
    Basic and the password when the username is AWS and the password is not
    empty, else Bearer and the cached token when there is one, else none.
    So the password of a username other than AWS is never sent to the
    registry, and a cached token goes on the manifest request and on the
    config blob request alike. *)
Theorem HasPlatformImage_authorization (env : Env) (tag arch os : string)
    (w : World) :
  exists reqs,
    sent w (HasPlatformImage env tag arch os w).2 reqs
    /\ Forall (fun req => ReqHeader req !! "Authorization"
                          = authorization_of (handle w)) reqs
    /\ (user (handle w) <> "AWS" ->
        authorization_of (handle w)
        = if decide (token (handle w) = "") then None
          else Some ["Bearer " +:+ token (handle w)]).
Proof.
  destruct (HasPlatformImage_sends env tag arch os w) as (reqs & Hs & Hall).
  exists reqs. split_and!; [exact Hs | exact Hall |].
  apply authorization_of_other_user.
Qed.

(** X17.  A token that [HasImage] obtained is attached to what follows.
    When a call of [HasImage] changed the token of a handle whose username
    is not AWS, every request of a following [HasPlatformImage] carries
    Bearer and that token as its Authorization header. *)
Theorem HasImage_token_is_attached (env : Env) (tag tag' arch os : string)
    (w : World) :
  user (handle w) <> "AWS" ->
  token (handle (HasImage env tag w).2) <> token (handle w) ->
  exists reqs,
    sent (HasImage env tag w).2
         (HasPlatformImage env tag' arch os (HasImage env tag w).2).2 reqs
    /\ Forall (fun req =>
                 ReqHeader req !! "Authorization"
                 = Some ["Bearer " +:+ token (handle (HasImage env tag w).2)])
              reqs.
Proof.
  intros Hu Hchanged.
  destruct (HasImage_for_keeps_handle env tag 2 w)
    as (_ & _ & Hu' & _ & Htok).
  change (HasImage_for env 2 tag w) with (HasImage env tag w) in *.
  destruct Htok as [Htok|Htok]; [done|].
  destruct (HasPlatformImage_sends env tag' arch os (HasImage env tag w).2)
    as (reqs & Hs & Hall).
  exists reqs. split; [exact Hs|].
  rewrite authorization_of_other_user in Hall by congruence.
  by destruct (decide _).
Qed.

Lemma HasImage_token_is_attached_witness :
  exists reqs,
    sent (HasImage Scenario.bearer_then_ok "latest" Scenario.start).2
         (HasPlatformImage Scenario.bearer_then_ok "latest" "arm64" "linux"
            (HasImage Scenario.bearer_then_ok "latest" Scenario.start).2).2
         reqs
    /\ Forall (fun req =>
                 ReqHeader req !! "Authorization"
                 = Some ["Bearer " +:+
                         token (handle (HasImage Scenario.bearer_then_ok
                                          "latest" Scenario.start).2)])
              reqs.
Proof.
  apply (HasImage_token_is_attached Scenario.bearer_then_ok "latest" "latest"
           "arm64" "linux" Scenario.start).
  - vm_compute. discriminate.
  - vm_compute. discriminate.
Defined.

(** ** The token request *)

(** X18.  When the realm does not parse, [login] returns the error of
    the parser and sends nothing.  Otherwise a request that [login] sends is
    a GET of the realm with the query service, scope (both escaped); it
    carries HTTP Basic credentials exactly when the username and the
    password are both not empty, and no other header: the cached token is
    never sent to the token endpoint. *)
Theorem login_request (env : Env) (endpoint service scope : string)
    (w : World) :
  (forall err, url_Parse env endpoint = inl err ->
     login env endpoint service scope w = (Done (Some err), w))
  /\ (forall u r w' req,
        url_Parse env endpoint = inr u ->
        login env endpoint service scope w = (r, w') ->
        sent w w' [req] ->
        Method req = "GET"
        /\ URL req
           = url_String env
               (url.set_RawQuery
                  ("service=" +:+ url_QueryEscape env service +:+ "&"
                   +:+ "scope=" +:+ url_QueryEscape env scope) u)
        /\ ReqHeader req
           = if decide (user (handle w) <> "" /\ password (handle w) <> "")
             then {[ "Authorization" :=
                       ["Basic " +:+ basicAuth env (user (handle w))
                                       (password (handle w))] ]}
             else ∅).
Proof.
  split.
  - intros err E. unfold login. by rewrite E.
  - intros u r w' req E. unfold login. rewrite E.
    assert (Hnone : sent w w [req] -> False).
    { unfold sent. intros Hs. apply (f_equal length) in Hs.
      rewrite length_app in Hs. cbn in Hs. lia. }
    destruct (NewRequest env "GET" _) as [err|req0] eqn:En.
    { intros [= _ <-] Hs. by destruct Hnone. }
    apply NewRequest_Method in En as (Hm & Hu & Hh). run.
    set (req1 := if (negb (user (handle w) =? "")
                     && negb (password (handle w) =? ""))%string
                 then SetBasicAuth env (user (handle w)) (password (handle w))
                        req0
                 else req0).
    assert (Hreq1 : Method req1 = "GET"
              /\ URL req1
                 = url_String env
                     (url.set_RawQuery
                        ("service=" +:+ url_QueryEscape env service +:+ "&"
                         +:+ "scope=" +:+ url_QueryEscape env scope) u)
              /\ ReqHeader req1
                 = if decide (user (handle w) <> "" /\ password (handle w) <> "")
                   then {[ "Authorization" :=
                             ["Basic " +:+ basicAuth env (user (handle w))
                                             (password (handle w))] ]}
                   else ∅).
    { subst req1.
      destruct (String.eqb_spec (user (handle w)) "") as [E1|E1],
               (String.eqb_spec (password (handle w)) "") as [E2|E2];
        cbn [negb andb]; (split; [exact Hm|]); (split; [exact Hu|]);
        destruct (decide _) as [[H1 H2]|Hn]; try done.
      - cbn. rewrite Hh. unfold Header.Set_. apply insert_empty.
      - exfalso. apply Hn. done. }
    assert (Hlast : forall c, sent w (mkWorld c (wire w ++ [req1])) [req] ->
                              req = req1).
    { intros c Hs. unfold sent in Hs. cbn in Hs.
      apply app_inv_head in Hs. by injection Hs. }
    destruct (transport env (wire w) req1) as [err|resp].
    { intros [= _ <-] Hs. apply Hlast in Hs. by subst. }
    destruct (negb (StatusCode resp =? 200)%Z).
    { intros [= _ <-] Hs. apply Hlast in Hs. by subst. }
    destruct (decode_Token env (Body resp)) as [err|tok].
    { intros [= _ <-] Hs. apply Hlast in Hs. by subst. }
    destruct (tok =? "")%string.
    { intros [= _ <-] Hs. apply Hlast in Hs. by subst. }
    intros [= _ <-] Hs. apply Hlast in Hs. by subst.
Qed.

Lemma login_request_witness :
  Method (mkRequest "GET"
            ("https://auth.example.com/token?service=registry.example.com"
             +:+ "&scope=repository:team/app:pull")
            {[ "Authorization" := ["Basic alice:s3cret"] ]}) = "GET"
  /\ URL (mkRequest "GET"
            ("https://auth.example.com/token?service=registry.example.com"
             +:+ "&scope=repository:team/app:pull")
            {[ "Authorization" := ["Basic alice:s3cret"] ]})
     = url_String Scenario.login_refused
         (url.set_RawQuery
            ("service=" +:+ url_QueryEscape Scenario.login_refused
                              "registry.example.com" +:+ "&"
             +:+ "scope=" +:+ url_QueryEscape Scenario.login_refused
                                "repository:team/app:pull")
            (url.mk "https://auth.example.com/token" ""))
  /\ ReqHeader
       (mkRequest "GET"
          ("https://auth.example.com/token?service=registry.example.com"
           +:+ "&scope=repository:team/app:pull")
          {[ "Authorization" := ["Basic alice:s3cret"] ]})
     = if decide (user (handle Fixture.with_token) <> ""
                  /\ password (handle Fixture.with_token) <> "")
       then {[ "Authorization" :=
                 ["Basic " +:+ basicAuth Scenario.login_refused
                                 (user (handle Fixture.with_token))
                                 (password (handle Fixture.with_token))] ]}
       else ∅.
Proof.
  refine (proj2 (login_request Scenario.login_refused
                   "https://auth.example.com/token" "registry.example.com"
                   "repository:team/app:pull" Fixture.with_token)
                (url.mk "https://auth.example.com/token" "")
                (fst (login Scenario.login_refused
                        "https://auth.example.com/token"
                        "registry.example.com" "repository:team/app:pull"
                        Fixture.with_token))
                (snd (login Scenario.login_refused
                        "https://auth.example.com/token"
                        "registry.example.com" "repository:team/app:pull"
                        Fixture.with_token))
                _ _ _ _).
  - reflexivity.
  - apply surjective_pairing.
  - vm_compute. reflexivity.
Defined.

(** ** A fresh handle *)

Lemma New_fields (image usr pw : string) (c : Repository) :
  New image usr pw = Done c ->
  user c = usr /\ password c = pw /\ token c = "".
Proof.
  unfold New.
  destruct (index (Strings.SplitN image "/" 2) 0) as [p0|msg];
    [|discriminate].
  cbn [mbind Outcome_bind].
  destruct (Strings.Contains p0 "." && _).
  - destruct (index (Strings.SplitN image "/" 2) 1) as [p1|msg];
      [|discriminate].
    cbn. by intros [= <-].
  - cbn. by intros [= <-].
Qed.

(** X19.  The first probe of a fresh handle is anonymous.  Whatever
    username and password were given to [New], unless the username is AWS
    and the password is not empty, the first probe is a HEAD of the manifest
    URL of the resolved host and repository and carries no Authorization
    header: the credentials only go to the token endpoint after a
    challenge. *)
Theorem New_first_probe_anonymous (env : Env) (image usr pw tag : string)
    (c : Repository) (r : Outcome (error + Response)) (w' : World)
    (req : Request) :
  New image usr pw = Done c ->
  ~ (usr = "AWS" /\ pw <> "") ->
  getAvailability env tag (mkWorld c []) = (r, w') ->
  sent (mkWorld c []) w' [req] ->
  Method req = "HEAD"
  /\ URL req = "https://" +:+ host c +:+ "/v2/" +:+ repo c
               +:+ "/manifests/" +:+ tag
  /\ ReqHeader req !! "Authorization" = None.
Proof.
  intros Hnew Hstatic Hp Hs.
  apply New_fields in Hnew as (Hu & Hpw & Htok).
  rewrite getAvailability_fetch in Hp.
  assert (Hauth : authorization_of c = None).
  { unfold authorization_of. rewrite Htok. cbn [String.eqb negb].
    destruct ((user c =? "AWS") && negb (password c =? ""))%string eqn:E;
      [|reflexivity].
    exfalso. apply Hstatic. apply andb_true_iff in E as [E1 E2].
    apply String.eqb_eq in E1. apply negb_true_iff, String.eqb_neq in E2.
    split; congruence. }
  destruct (registry_request_shape env (mkWorld c []) w' req)
    as (req0 & H0 & Hreq); [left; by exists "HEAD", tag, r | exact Hs |].
  split_and!.
  - rewrite fetchManifests_unfold in Hp. cbn [handle wire] in Hp.
    destruct (NewRequest env "HEAD" _) as [err|req1] eqn:E.
    + injection Hp as _ <-. unfold sent in Hs. cbn in Hs. discriminate.
    + apply NewRequest_Method in E as (Hm & _ & _).
      cbn zeta in Hp. injection Hp as _ <-.
      unfold sent in Hs. cbn in Hs. injection Hs as <-.
      by rewrite setAuthHeader_Method.
  - rewrite fetchManifests_unfold in Hp. cbn [handle wire] in Hp.
    destruct (NewRequest env "HEAD" _) as [err|req1] eqn:E.
    + injection Hp as _ <-. unfold sent in Hs. cbn in Hs. discriminate.
    + apply NewRequest_Method in E as (_ & Hurl & _).
      cbn zeta in Hp. injection Hp as _ <-.
      unfold sent in Hs. cbn in Hs. injection Hs as <-.
      by rewrite setAuthHeader_URL.
  - rewrite Hreq. cbn [handle].
    rewrite setAuthHeader_authorization by exact H0. exact Hauth.
Qed.

Lemma New_first_probe_anonymous_witness :
  Method (mkRequest "HEAD"
            "https://registry-1.docker.io/v2/library/nginx/manifests/latest"
            {[ "Accept" := [manifest_Accept] ]}) = "HEAD"
  /\ URL (mkRequest "HEAD"
            "https://registry-1.docker.io/v2/library/nginx/manifests/latest"
            {[ "Accept" := [manifest_Accept] ]})
     = "https://" +:+ host (mkRepository dockerHubHost "library/nginx"
                              "alice" "s3cret" "")
       +:+ "/v2/" +:+ repo (mkRepository dockerHubHost "library/nginx"
                              "alice" "s3cret" "")
       +:+ "/manifests/" +:+ "latest"
  /\ ReqHeader
       (mkRequest "HEAD"
          "https://registry-1.docker.io/v2/library/nginx/manifests/latest"
          {[ "Accept" := [manifest_Accept] ]})
       !! "Authorization" = None.
Proof.
  refine (New_first_probe_anonymous Scenario.missing "nginx" "alice" "s3cret"
            "latest" _
            (fst (getAvailability Scenario.missing "latest"
                    (mkWorld (mkRepository dockerHubHost "library/nginx"
                                "alice" "s3cret" "") [])))
            (snd (getAvailability Scenario.missing "latest"
                    (mkWorld (mkRepository dockerHubHost "library/nginx"
                                "alice" "s3cret" "") [])))
            _ _ _ _ _).
  - vm_compute. reflexivity.
  - intros [H _]. discriminate H.
  - apply surjective_pairing.
  - vm_compute. reflexivity.
Defined.
